(** * VoiceScribe bot: a shallow embedding of [bot.py]

    The bot relays audio attachments of a chat platform to a remote
    speech-to-text service, then to a remote language model, and answers
    in the originating conversation.  This file embeds the handlers and
    [main] of [bot.py] as state-passing functions over an explicit world
    (the outcomes of the remote calls), a file system and a trace of the
    calls made, and proves properties of the message-handling flow.

    Conventions.
    - A Python [str] is a [string] holding its UTF-8 bytes.
    - A Python [int] is a [Z].
    - An optional attribute ([None] when absent) is an [option].
    - The working directory is a finite set of paths.
    - [os.environ] is a finite map from names to values. *)

From Stdlib Require Import ZArith QArith List Ascii String.
From Stdlib Require Import DecimalString DecimalPos DecimalZ.
From stdpp Require Import base option list gmap strings sets.

Local Open Scope string_scope.
Local Open Scope Z_scope.

(** ** Python string operations used by the bot *)

Module PyStr.

(** One line feed. *)
Definition nl : string := String "010"%char EmptyString.

(** [a + b] on strings. *)
Definition cat (ss : list string) : string :=
  List.fold_right String.append EmptyString ss.

(** [str(n)] for an integer [n]: decimal digits, a leading [-] for a
    negative number, [0] for zero. *)
Definition str_int (n : Z) : string :=
  NilZero.string_of_int (Z.to_int n).

(** [s.startswith(p)]. *)
Definition startswith (s p : string) : bool := String.prefix p s.

(** [needle in hay]. *)
Fixpoint contains (needle hay : string) : bool :=
  String.prefix needle hay ||
  match hay with
  | EmptyString => false
  | String _ hay' => contains needle hay'
  end.

(** [s.split(sep)] for a one-character separator: the list is never
    empty, and [k] separators give [k + 1] pieces. *)
Fixpoint split (sep : ascii) (s : string) : list string :=
  match s with
  | EmptyString => [EmptyString]
  | String c s' =>
      if Ascii.eqb c sep then EmptyString :: split sep s'
      else match split sep s' with
           | [] => [String c EmptyString]
           | piece :: pieces => String c piece :: pieces
           end
  end.

(** [sep.join(l)]. *)
Fixpoint join (sep : ascii) (l : list string) : string :=
  match l with
  | [] => EmptyString
  | [piece] => piece
  | piece :: rest => piece ++ String sep (join sep rest)
  end.

(** [c in s] for one character. *)
Fixpoint has_char (c : ascii) (s : string) : bool :=
  match s with
  | EmptyString => false
  | String a s' => Ascii.eqb a c || has_char c s'
  end.

(** Truth value of an optional string: [None] and [""] are false. *)
Definition truthy (o : option string) : bool :=
  match o with
  | None | Some EmptyString => false
  | Some _ => true
  end.

(** The code points Python treats as white space, as UTF-8 byte
    sequences: U+0009..U+000D, U+001C..U+0020, U+0085, U+00A0, U+1680,
    U+2000..U+200A, U+2028, U+2029, U+202F, U+205F, U+3000. *)
Definition bytes (l : list N) : string :=
  List.fold_right (fun b s => String (ascii_of_N b) s) EmptyString l.

Definition whitespace_codes : list (list N) :=
  List.app
    [ [9]; [10]; [11]; [12]; [13]; [28]; [29]; [30]; [31]; [32];
      [194; 133]; [194; 160]; [225; 154; 128] ]%N
    (List.app
       (List.map (fun b => [226; 128; b]%N)
          [128; 129; 130; 131; 132; 133; 134; 135; 136; 137; 138;
           168; 169; 175]%N)
       [ [226; 129; 159]; [227; 128; 128] ]%N).

Definition whitespace : list string := List.map bytes whitespace_codes.

(** Drop the string [p] from the front of [s] when it is there. *)
Fixpoint drop_prefix (p s : string) : option string :=
  match p, s with
  | EmptyString, _ => Some s
  | String a p', String b s' =>
      if Ascii.eqb a b then drop_prefix p' s' else None
  | String _ _, EmptyString => None
  end.

(** Drop one leading white-space code point. *)
Definition drop_space (ws : list string) (s : string) : option string :=
  List.fold_right
    (fun w acc => match drop_prefix w s with Some r => Some r | None => acc end)
    None ws.

Fixpoint lstrip_fuel (ws : list string) (fuel : nat) (s : string) : string :=
  match fuel with
  | O => s
  | S fuel' =>
      match drop_space ws s with
      | Some r => lstrip_fuel ws fuel' r
      | None => s
      end
  end.

(** [s.lstrip()]: each step removes at least one byte, so [length s]
    steps suffice. *)
Definition lstrip (s : string) : string :=
  lstrip_fuel whitespace (String.length s) s.

Definition rev (s : string) : string :=
  string_of_list_ascii (List.rev (list_ascii_of_string s)).

(** [s.rstrip()]: the same on the reversed string, with the byte
    sequences reversed. *)
Definition rstrip (s : string) : string :=
  rev (lstrip_fuel (List.map rev whitespace) (String.length s) (rev s)).

(** [s.strip()]. *)
Definition strip (s : string) : string := rstrip (lstrip s).

End PyStr.

(** ** Incoming events *)

(** [update.message.voice]: a voice note carries no file name. *)
Record Voice := { voice_file_id : string }.

(** [update.message.audio]. *)
Record Audio := {
  audio_file_id : string;
  audio_file_name : option string
}.

(** [update.message.document]. *)
Record Document := {
  document_file_id : string;
  document_file_name : option string;
  document_mime_type : option string
}.

(** [update.message].  [command] is the bot command the text starts with
    when that command is addressed to this bot ([/name] or
    [/name@<this bot>]), as the chat library parses it from the message
    entities (without the slash and the bot name, lower-cased); it is
    [None] for a text that does not start with a bot command.  A text
    that starts with a command for another bot is not represented. *)
Record Message := {
  chat_id : Z;
  message_id : Z;
  voice : option Voice;
  audio : option Audio;
  document : option Document;
  text : option string;
  command : option string
}.

(** ** Fixed texts of [bot.py] *)

Definition SYSTEM_PROMPT : string :=
  PyStr.cat [
    "Ты — ассистент для обработки транскрибированных голосовых сообщений."; PyStr.nl;
    PyStr.nl;
    "Твоя задача — выделить ключевые тезисы из текста."; PyStr.nl;
    PyStr.nl;
    "Правила:"; PyStr.nl;
    "- Количество тезисов: от 3 до 7 (зависит от объёма информации)"; PyStr.nl;
    "- Каждый тезис — одна законченная мысль"; PyStr.nl;
    "- Порядок — по логике изложения в тексте"; PyStr.nl;
    "- Без интерпретаций и домыслов — только то, что сказано"; PyStr.nl;
    "- Формат: нумерованный список"; PyStr.nl;
    PyStr.nl;
    "Если текст слишком короткий (1-2 предложения), выдели 1-2 главные мысли." ].

Definition welcome_message : string :=
  PyStr.cat [
    "Здравствуйте! Я VoiceScribe — помогаю обрабатывать голосовые сообщения."; PyStr.nl;
    PyStr.nl;
    "Отправьте аудиофайл или голосовое сообщение, и я сделаю:"; PyStr.nl;
    "• Полную текстовую расшифровку"; PyStr.nl;
    "• Краткие тезисы (3–7 пунктов)"; PyStr.nl;
    PyStr.nl;
    "Готов к работе." ].

Definition help_text : string :=
  PyStr.cat [
    "Я делаю две вещи:"; PyStr.nl;
    "1. Расшифровываю аудио в текст"; PyStr.nl;
    "2. Выделяю ключевые тезисы"; PyStr.nl;
    PyStr.nl;
    "Поддерживаемые форматы: голосовые сообщения, .ogg, .mp3, .wav"; PyStr.nl;
    PyStr.nl;
    "Просто отправьте аудио — покажу на практике." ].

(** The rejection text of [handle_voice] (lines 80-83 and 88-91). *)
Definition unsupported_message : string :=
  "Я работаю только с аудиофайлами форматов .mp3, .ogg и .wav. "
  ++ "Пожалуйста, отправьте голосовое сообщение или аудиозапись.".

(** The text of [handle_other]. *)
Definition other_message : string :=
  "Я специализируюсь на расшифровке аудио и выделении тезисов. "
  ++ "Отправьте голосовое сообщение или аудиофайл.".

Definition processing_text : string := "Файл получен. Обрабатываю...".

Definition not_recognized_message : string :=
  "Не удалось распознать речь. Возможно, запись слишком тихая или содержит только шум.".

Definition generic_error_message : string :=
  "Произошла ошибка при обработке аудио. Попробуйте ещё раз.".

Definition low_quality_message : string :=
  "Качество записи низкое, не удалось обработать. Попробуйте записать сообщение в более тихом месте.".

Definition quality_signature : string := "Could not process audio".

(** The user content sent to the language model (line 125). *)
Definition user_prompt (transcript_text : string) : string :=
  PyStr.cat [ "Выдели тезисы из следующего текста:"; PyStr.nl; PyStr.nl; transcript_text ].

(** [f"{theses}"] where the content of a completion may be [None]. *)
Definition format_content (content : option string) : string :=
  match content with
  | Some s => s
  | None => "None"
  end.

(** The composed answer (lines 134-140). *)
Definition result_message (transcript_text : string) (theses : option string) : string :=
  PyStr.cat [
    "📝 Транскрипция:"; PyStr.nl;
    transcript_text; PyStr.nl;
    PyStr.nl;
    "📌 Тезисы:"; PyStr.nl;
    format_content theses; PyStr.nl;
    PyStr.nl;
    "Нужно что-то ещё?" ].

(** ** Requests to the remote services *)

Record TranscriptionRequest := {
  tr_model : string;
  tr_file : string;
  tr_language : string
}.

Record ChatMessage := { role : string; content : string }.

Record CompletionRequest := {
  cr_model : string;
  cr_messages : list ChatMessage;
  cr_temperature : Q;
  cr_max_tokens : Z
}.

Definition transcription_request (file_path : string) : TranscriptionRequest :=
  {| tr_model := "whisper-1"; tr_file := file_path; tr_language := "ru" |}.

Definition completion_request (transcript_text : string) : CompletionRequest :=
  {| cr_model := "gpt-4o-mini";
     cr_messages :=
       [ {| role := "system"; content := SYSTEM_PROMPT |};
         {| role := "user"; content := user_prompt transcript_text |} ];
     cr_temperature := 0.3%Q;
     cr_max_tokens := 1000 |}.

(** ** Effects: exceptions, trace, file system *)

(** The call an exception comes from. *)
Inductive Call :=
  | c_get_file | c_reply_text | c_download_to_drive | c_open
  | c_transcribe | c_summarize | c_index | c_edit_text | c_remove
  | c_raise.

(** A Python exception: where it was raised and [str(e)]. *)
Record Exception := { exc_origin : Call; exc_str : string }.

(** What a call to the outside world answers. *)
Inductive Result (A : Type) :=
  | Ok (a : A)
  | Fails (msg : string).
Arguments Ok {A} a.
Arguments Fails {A} msg.

(** A download either writes the whole file, or fails before creating
    it, or fails after creating it. *)
Inductive DownloadResult :=
  | Downloaded
  | DownloadFailed (msg : string)
  | DownloadBroken (msg : string).

(** The calls of one handler run that leave the process. *)
Inductive Action :=
  | a_get_file (file_id : string)
  | a_reply_text (body : string)
  | a_download_to_drive (path : string)
  | a_open (path : string)
  | a_transcribe (req : TranscriptionRequest)
  | a_summarize (req : CompletionRequest)
  | a_edit_text (body : string)
  | a_remove (path : string)
  | a_log_error (line : string).

(** One entry of the trace: the call and whether it raised. *)
Record Event := { action : Action; raised : bool }.

(** The outside world during one handler run.  The answer to an edit may
    depend on how many edits were tried before it. *)
Record World := {
  get_file_result : string -> Result unit;
  reply_text_result : string -> Result unit;
  download_result : string -> DownloadResult;
  transcribe_result : TranscriptionRequest -> Result string;
  summarize_result : CompletionRequest -> Result (list (option string));
  edit_text_result : nat -> string -> Result unit
}.

(** The working directory and the calls made so far. *)
Record State := { files : gset string; trace : list Event }.

Inductive Outcome (A : Type) :=
  | Returned (a : A)
  | Raised (e : Exception).
Arguments Returned {A} a.
Arguments Raised {A} e.

(** State and exception monad. *)
Definition M (A : Type) : Type := State -> Outcome A * State.

Definition ret {A} (a : A) : M A := fun st => (Returned a, st).

Definition bind {A B} (m : M A) (k : A -> M B) : M B :=
  fun st =>
    match m st with
    | (Returned a, st') => k a st'
    | (Raised e, st') => (Raised e, st')
    end.

(** [try: m except Exception as e: h e]. *)
Definition try_except {A} (m : M A) (h : Exception -> M A) : M A :=
  fun st =>
    match m st with
    | (Returned a, st') => (Returned a, st')
    | (Raised e, st') => h e st'
    end.

Notation "'do' x <- m ; k" := (bind m (fun x => k))
  (at level 10, x name, m at level 100, k at level 200, only parsing).
Notation "'run' m ; k" := (bind m (fun _ => k))
  (at level 10, m at level 100, k at level 200, only parsing).

Definition record_event (act : Action) (failed : bool) (st : State) : State :=
  {| files := files st; trace := trace st ++ [ {| action := act; raised := failed |} ] |}.

(** A call that does not touch the working directory. *)
Definition remote {A} (act : Action) (origin : Call) (r : Result A) : M A :=
  fun st =>
    match r with
    | Ok a => (Returned a, record_event act false st)
    | Fails msg =>
        (Raised {| exc_origin := origin; exc_str := msg |}, record_event act true st)
    end.

Definition is_edit (ev : Event) : bool :=
  match action ev with a_edit_text _ => true | _ => false end.

Definition edits_tried (st : State) : nat :=
  List.length (List.filter is_edit (trace st)).

Definition get_file (w : World) (file_id : string) : M unit :=
  remote (a_get_file file_id) c_get_file (get_file_result w file_id).

Definition reply_text (w : World) (body : string) : M unit :=
  remote (a_reply_text body) c_reply_text (reply_text_result w body).

Definition edit_text (w : World) (body : string) : M unit :=
  fun st =>
    remote (a_edit_text body) c_edit_text (edit_text_result w (edits_tried st) body) st.

Definition transcribe (w : World) (req : TranscriptionRequest) : M string :=
  remote (a_transcribe req) c_transcribe (transcribe_result w req).

Definition summarize (w : World) (req : CompletionRequest) : M (list (option string)) :=
  remote (a_summarize req) c_summarize (summarize_result w req).

Definition logger_error (line : string) : M unit :=
  fun st => (Returned tt, record_event (a_log_error line) false st).

Definition add_file (path : string) (st : State) : State :=
  {| files := {[ path ]} ∪ files st; trace := trace st |}.

Definition del_file (path : string) (st : State) : State :=
  {| files := files st ∖ {[ path ]}; trace := trace st |}.

(** [file.download_to_drive(path)]. *)
Definition download_to_drive (w : World) (path : string) : M unit :=
  fun st =>
    match download_result w path with
    | Downloaded =>
        (Returned tt, add_file path (record_event (a_download_to_drive path) false st))
    | DownloadFailed msg =>
        (Raised {| exc_origin := c_download_to_drive; exc_str := msg |},
         record_event (a_download_to_drive path) true st)
    | DownloadBroken msg =>
        (Raised {| exc_origin := c_download_to_drive; exc_str := msg |},
         add_file path (record_event (a_download_to_drive path) true st))
    end.

Definition no_such_file (path : string) : string :=
  "[Errno 2] No such file or directory: '" ++ path ++ "'".

(** [open(path, "rb")]: raises when the file is not there. *)
Definition open_rb (path : string) : M unit :=
  fun st =>
    if bool_decide (path ∈ files st)
    then (Returned tt, record_event (a_open path) false st)
    else (Raised {| exc_origin := c_open; exc_str := no_such_file path |},
          record_event (a_open path) true st).

(** [os.path.exists(path)]. *)
Definition os_path_exists (path : string) : M bool :=
  fun st => (Returned (bool_decide (path ∈ files st)), st).

(** [os.remove(path)]: raises when the file is not there. *)
Definition os_remove (path : string) : M unit :=
  fun st =>
    if bool_decide (path ∈ files st)
    then (Returned tt, del_file path (record_event (a_remove path) false st))
    else (Raised {| exc_origin := c_remove; exc_str := no_such_file path |},
          record_event (a_remove path) true st).

(** [choices[0]]: an [IndexError] on an empty list. *)
Definition index0 {A} (l : list A) : M A :=
  fun st =>
    match l with
    | x :: _ => (Returned x, st)
    | [] => (Raised {| exc_origin := c_index; exc_str := "list index out of range" |}, st)
    end.

(** ** [handle_voice] *)

(** What lines 70-92 find in the message: nothing to process, or the
    remote file identifier and the extension of the local copy. *)
Inductive Attachment :=
  | Unsupported
  | Accepted (file_id : string) (file_extension : string).

(** [file_name.split('.')[-1] if file_name else fallback].  [split] never
    returns the empty list, so the default of [List.last] is not used. *)
Definition extension_of (file_name : option string) (fallback : string) : string :=
  match file_name with
  | Some name =>
      if PyStr.truthy file_name
      then List.last (PyStr.split "."%char name) EmptyString
      else fallback
  | None => fallback
  end.

(** The [if]/[elif] chain of lines 70-92.  The three accepting branches
    differ only in the file identifier they look up and in the
    extension. *)
Definition classify (m : Message) : Attachment :=
  match voice m with
  | Some v => Accepted (voice_file_id v) "ogg"
  | None =>
      match audio m with
      | Some a => Accepted (audio_file_id a) (extension_of (audio_file_name a) "mp3")
      | None =>
          match document m with
          | Some d =>
              let mime_type := default EmptyString (document_mime_type d) in
              if negb (PyStr.startswith mime_type "audio/") then Unsupported
              else Accepted (document_file_id d)
                     (extension_of (document_file_name d) "ogg")
          | None => Unsupported
          end
      end
  end.

(** Line 99. *)
Definition file_path (m : Message) (file_extension : string) : string :=
  PyStr.cat [ "voice_"; PyStr.str_int (chat_id m); "_";
              PyStr.str_int (message_id m); "."; file_extension ].

(** [not transcript_text or transcript_text.strip() == ""]. *)
Definition blank (transcript_text : string) : bool :=
  negb (PyStr.truthy (Some transcript_text))
  || String.eqb (PyStr.strip transcript_text) EmptyString.

(** The body of the [try] (lines 98-146).  The early [return] of line
    118 ends the handler, which has nothing after the [try] statement,
    so it is the end of the first branch here. *)
Definition pipeline (w : World) (path : string) : M unit :=
  run download_to_drive w path;
  run open_rb path;
  do transcript_text <- transcribe w (transcription_request path);
  if blank transcript_text then
    run edit_text w not_recognized_message;
    os_remove path
  else
    do choices <- summarize w (completion_request transcript_text);
    do theses <- index0 choices;
    run edit_text w (result_message transcript_text theses);
    os_remove path.

(** Lines 150-153. *)
Definition error_message (e : Exception) : string :=
  if PyStr.contains quality_signature (exc_str e)
  then low_quality_message
  else generic_error_message.

(** The [except] clause (lines 148-159).  [file_path] is bound by the
    first statement of the [try], which cannot raise, so it is always
    among the locals here. *)
Definition on_exception (w : World) (path : string) (e : Exception) : M unit :=
  run logger_error ("Ошибка при обработке: " ++ exc_str e);
  run edit_text w (error_message e);
  do there <- os_path_exists path;
  if there then os_remove path else ret tt.

(** Lines 95-159. *)
Definition process (w : World) (m : Message) (file_extension : string) : M unit :=
  run reply_text w processing_text;
  try_except (pipeline w (file_path m file_extension))
             (on_exception w (file_path m file_extension)).

Definition handle_voice (w : World) (m : Message) : M unit :=
  match classify m with
  | Unsupported => reply_text w unsupported_message
  | Accepted file_id file_extension =>
      run get_file w file_id;
      process w m file_extension
  end.

(** ** The other handlers *)

Definition start (w : World) (m : Message) : M unit :=
  reply_text w welcome_message.

Definition help_command (w : World) (m : Message) : M unit :=
  reply_text w help_text.

Definition handle_other (w : World) (m : Message) : M unit :=
  reply_text w other_message.

(** ** The router set up by [main] *)

Inductive Callback := cb_start | cb_help_command | cb_handle_voice | cb_handle_other.

(** The filters of the chat library, as its documentation gives them. *)
Module filters.

(** [filters.VOICE]: the message has a voice note. *)
Definition VOICE (m : Message) : bool := bool_decide (is_Some (voice m)).

(** [filters.AUDIO]: the message has an audio attachment. *)
Definition AUDIO (m : Message) : bool := bool_decide (is_Some (audio m)).

(** [filters.Document.AUDIO]: the message has a document whose MIME
    type is given and starts with [audio/]. *)
Definition Document_AUDIO (m : Message) : bool :=
  match document m with
  | Some d =>
      match document_mime_type d with
      | Some mime => PyStr.truthy (Some mime) && PyStr.startswith mime "audio/"
      | None => false
      end
  | None => false
  end.

(** [filters.TEXT]: the message has a text. *)
Definition TEXT (m : Message) : bool := PyStr.truthy (text m).

(** [filters.COMMAND]: the text starts with a bot command. *)
Definition COMMAND (m : Message) : bool :=
  PyStr.truthy (text m) && bool_decide (is_Some (command m)).

(** [CommandHandler(name, ...)]. *)
Definition Command (name : string) (m : Message) : bool :=
  PyStr.truthy (text m) && bool_decide (command m = Some name).

End filters.

(** The handlers in the order [main] registers them (lines 185-189). *)
Definition handlers : list ((Message -> bool) * Callback) :=
  [ (filters.Command "start", cb_start);
    (filters.Command "help", cb_help_command);
    (fun m => filters.VOICE m || filters.AUDIO m, cb_handle_voice);
    (filters.Document_AUDIO, cb_handle_voice);
    (fun m => filters.TEXT m && negb (filters.COMMAND m), cb_handle_other) ].

(** The application gives an update to the first handler that accepts
    it, and to no handler when none does. *)
Definition dispatch (m : Message) : option Callback :=
  snd <$> List.find (fun h => fst h m) handlers.

Definition callback (cb : Callback) : World -> Message -> M unit :=
  match cb with
  | cb_start => start
  | cb_help_command => help_command
  | cb_handle_voice => handle_voice
  | cb_handle_other => handle_other
  end.

Definition process_update (w : World) (m : Message) : M unit :=
  match dispatch m with
  | Some cb => callback cb w m
  | None => ret tt
  end.

(** ** [main] *)

Inductive Startup :=
  | s_build (token : string)
  | s_add_handler (cb : Callback)
  | s_print (line : string)
  | s_run_polling.

(** [os.getenv(name)] and the truth value the [if not ...] tests take. *)
Definition getenv (environ : gmap string string) (name : string) : option string :=
  environ !! name.

(** [main]: the steps taken, in order, and how it ends.  [run_polling]
    is the serving loop; it is the last step. *)
Definition main (environ : gmap string string) : list Startup * Outcome unit :=
  let token := getenv environ "TELEGRAM_BOT_TOKEN" in
  if negb (PyStr.truthy token) then
    ([], Raised {| exc_origin := c_raise; exc_str := "TELEGRAM_BOT_TOKEN не установлен!" |})
  else if negb (PyStr.truthy (getenv environ "OPENAI_API_KEY")) then
    ([], Raised {| exc_origin := c_raise; exc_str := "OPENAI_API_KEY не установлен!" |})
  else
    ( s_build (default EmptyString token)
      :: List.map s_add_handler (List.map snd handlers)
      ++ [ s_print "VoiceScribe Bot запущен!"; s_run_polling ],
      Returned tt ).

(** ** Observations on a run *)

Definition initial (fs : gset string) : State := {| files := fs; trace := [] |}.

Definition is_send (ev : Event) : bool :=
  match action ev with a_reply_text _ => true | _ => false end.

Definition is_summarize (ev : Event) : bool :=
  match action ev with a_summarize _ => true | _ => false end.

Definition is_download (ev : Event) : bool :=
  match action ev with a_download_to_drive _ => true | _ => false end.

Definition delivered (ev : Event) : bool := negb (raised ev).

(** Messages that reached the chat. *)
Definition sent (t : list Event) : list Event :=
  List.filter (fun ev => is_send ev && delivered ev) t.

(** Edits of the status reply that the chat accepted. *)
Definition edited (t : list Event) : list Event :=
  List.filter (fun ev => is_edit ev && delivered ev) t.

Definition is_log (ev : Event) : bool :=
  match action ev with a_log_error _ => true | _ => false end.

(** The state in which the [try] statement starts: the file lookup and
    the acknowledgement went through. *)
Definition acknowledged (fs : gset string) (file_id : string) : State :=
  {| files := fs;
     trace := [ {| action := a_get_file file_id; raised := false |};
                {| action := a_reply_text processing_text; raised := false |} ] |}.

(** The path a file-system call works on. *)
Definition path_of (ev : Event) : option string :=
  match action ev with
  | a_download_to_drive p | a_open p | a_remove p => Some p
  | a_transcribe req => Some (tr_file req)
  | _ => None
  end.

(** The extension is the last dot-separated piece of the name: it holds
    no dot, and the name is either that piece alone or ends with a dot
    followed by it. *)
Definition last_suffix (name ext : string) : Prop :=
  PyStr.has_char "."%char ext = false /\
  (name = ext \/ exists stem, name = stem ++ String "."%char ext).

(** A string made of white-space code points only. *)
Definition whitespace_only (s : string) : Prop :=
  exists pieces, Forall (fun p => In p PyStr.whitespace) pieces /\ s = PyStr.cat pieces.

(** ** Sample events and worlds *)

Definition voice_message : Message :=
  {| chat_id := -1001234; message_id := 7;
     voice := Some {| voice_file_id := "AwACAgIAAxkBAAIB" |};
     audio := None; document := None; text := None; command := None |}.

Definition audio_message (file_name : option string) : Message :=
  {| chat_id := 42; message_id := 8; voice := None;
     audio := Some {| audio_file_id := "CQACAgIAAxkBAAIC"; audio_file_name := file_name |};
     document := None; text := None; command := None |}.

Definition document_message (file_name mime_type : option string) : Message :=
  {| chat_id := 42; message_id := 9; voice := None; audio := None;
     document := Some {| document_file_id := "BQACAgIAAxkBAAID";
                         document_file_name := file_name;
                         document_mime_type := mime_type |};
     text := None; command := None |}.

(** Every remote call succeeds; the recording says [hello world]. *)
Definition fair_world : World :=
  {| get_file_result := fun _ => Ok tt;
     reply_text_result := fun _ => Ok tt;
     download_result := fun _ => Downloaded;
     transcribe_result := fun _ => Ok "hello world";
     summarize_result := fun _ => Ok [Some "1. hello world"];
     edit_text_result := fun _ _ => Ok tt |}.

(** The recording is silent: the transcript is white space. *)
Definition silent_world : World :=
  {| get_file_result := fun _ => Ok tt;
     reply_text_result := fun _ => Ok tt;
     download_result := fun _ => Downloaded;
     transcribe_result := fun _ => Ok (" " ++ PyStr.nl);
     summarize_result := fun _ => Ok [Some "1."];
     edit_text_result := fun _ _ => Ok tt |}.

(** The speech-to-text service rejects the recording. *)
Definition noisy_world : World :=
  {| get_file_result := fun _ => Ok tt;
     reply_text_result := fun _ => Ok tt;
     download_result := fun _ => Downloaded;
     transcribe_result := fun _ => Fails "Error code: 400 - Could not process audio";
     summarize_result := fun _ => Ok [Some "1."];
     edit_text_result := fun _ _ => Ok tt |}.

(** The speech-to-text call times out and the status reply can no longer
    be edited (the user deleted it, or the chat platform is out of
    reach). *)
Definition offline_world : World :=
  {| get_file_result := fun _ => Ok tt;
     reply_text_result := fun _ => Ok tt;
     download_result := fun _ => Downloaded;
     transcribe_result := fun _ => Fails "Request timed out.";
     summarize_result := fun _ => Ok [Some "1."];
     edit_text_result := fun _ _ => Fails "Message to edit not found" |}.

(** The chat platform refuses the file lookup (the file is too big). *)
Definition oversize_world : World :=
  {| get_file_result := fun _ => Fails "File is too big";
     reply_text_result := fun _ => Ok tt;
     download_result := fun _ => Downloaded;
     transcribe_result := fun _ => Ok "hello world";
     summarize_result := fun _ => Ok [Some "1."];
     edit_text_result := fun _ _ => Ok tt |}.

Definition both_secrets : gmap string string :=
  {[ "TELEGRAM_BOT_TOKEN" := "123456:ABC-DEF"; "OPENAI_API_KEY" := "sk-test" ]}.

Definition empty_token : gmap string string :=
  {[ "TELEGRAM_BOT_TOKEN" := ""; "OPENAI_API_KEY" := "sk-test" ]}.

(** A text message without attachment; [command] as the chat library
    parses it. *)
Definition text_message (body : string) (parsed : option string) : Message :=
  {| chat_id := 42; message_id := 10; voice := None; audio := None;
     document := None; text := Some body; command := parsed |}.

(** The language model answers with no choice at all. *)
Definition speechless_world : World :=
  {| get_file_result := fun _ => Ok tt;
     reply_text_result := fun _ => Ok tt;
     download_result := fun _ => Downloaded;
     transcribe_result := fun _ => Ok "hello world";
     summarize_result := fun _ => Ok [];
     edit_text_result := fun _ _ => Ok tt |}.

(** The composed answer is too long for the chat: the first edit is
    refused, later ones go through. *)
Definition verbose_world : World :=
  {| get_file_result := fun _ => Ok tt;
     reply_text_result := fun _ => Ok tt;
     download_result := fun _ => Downloaded;
     transcribe_result := fun _ => Ok "hello world";
     summarize_result := fun _ => Ok [Some "1. hello world"];
     edit_text_result := fun n _ =>
       match n with
       | O => Fails "Message is too long"
       | S _ => Ok tt
       end |}.

(** The download breaks off after the file was created. *)
Definition broken_world : World :=
  {| get_file_result := fun _ => Ok tt;
     reply_text_result := fun _ => Ok tt;
     download_result := fun _ => DownloadBroken "Timed out";
     transcribe_result := fun _ => Ok "hello world";
     summarize_result := fun _ => Ok [Some "1."];
     edit_text_result := fun _ _ => Ok tt |}.

(** The recording is silent and the chat refuses the first edit of the
    status reply (a time-out), then accepts the next one. *)
Definition fussy_silent_world : World :=
  {| get_file_result := fun _ => Ok tt;
     reply_text_result := fun _ => Ok tt;
     download_result := fun _ => Downloaded;
     transcribe_result := fun _ => Ok (" " ++ PyStr.nl);
     summarize_result := fun _ => Ok [Some "1."];
     edit_text_result := fun n _ =>
       match n with
       | O => Fails "Timed out"
       | S _ => Ok tt
       end |}.

(** ** Updates *)

(** The kinds of update that carry a message.  Only a new message sets
    [update.message]; for an edited message, a channel post and an
    edited channel post [update.message] is [None], and the message is
    reached through [update.effective_message], which is what the
    handlers and filters of the chat library look at.  [main] asks for
    all kinds of update (line 193). *)
Inductive UpdateKind :=
  | k_message | k_edited_message | k_channel_post | k_edited_channel_post.

Record Update := { kind : UpdateKind; effective_message : Message }.

(** [update.message]. *)
Definition update_message (u : Update) : option Message :=
  match kind u with
  | k_message => Some (effective_message u)
  | _ => None
  end.

(** How a handler called on an update ends: it runs on the message, or
    its first [update.message.<attribute>] fails because
    [update.message] is [None]. *)
Inductive Ending :=
  | Ran (o : Outcome unit)
  | AttributeError (attribute : string).

Definition ran (r : Outcome unit * State) : Ending * State := (Ran r.1, r.2).

(** A handler of [bot.py] as the application calls it, on the update;
    [attribute] is the first attribute of [update.message] it reads. *)
Definition on_message (attribute : string) (handler : World -> Message -> M unit)
    (w : World) (u : Update) (st : State) : Ending * State :=
  match update_message u with
  | Some m => ran (handler w m st)
  | None => (AttributeError attribute, st)
  end.

(** [start] and [help_command] read [update.message.reply_text] (lines
    51 and 63), [handle_voice] reads [update.message.voice] first (line
    70), [handle_other] reads [update.message.reply_text] (line 164). *)
Definition callback_on (cb : Callback) : World -> Update -> State -> Ending * State :=
  match cb with
  | cb_start => on_message "reply_text" start
  | cb_help_command => on_message "reply_text" help_command
  | cb_handle_voice => on_message "voice" handle_voice
  | cb_handle_other => on_message "reply_text" handle_other
  end.

(** [filters.UpdateType.MESSAGES], the filter a [CommandHandler] has
    when none is given: new and edited messages. *)
Definition UpdateType_MESSAGES (u : Update) : bool :=
  match kind u with
  | k_message | k_edited_message => true
  | k_channel_post | k_edited_channel_post => false
  end.

(** The handlers of lines 185-189 as tests on an update: a
    [CommandHandler] looks at the command of the effective message and
    at the kind of update, a [MessageHandler] applies its filter to the
    effective message of any kind of update. *)
Definition update_handlers : list ((Update -> bool) * Callback) :=
  [ (fun u => filters.Command "start" (effective_message u) && UpdateType_MESSAGES u,
     cb_start);
    (fun u => filters.Command "help" (effective_message u) && UpdateType_MESSAGES u,
     cb_help_command);
    (fun u => filters.VOICE (effective_message u) || filters.AUDIO (effective_message u),
     cb_handle_voice);
    (fun u => filters.Document_AUDIO (effective_message u), cb_handle_voice);
    (fun u => filters.TEXT (effective_message u)
              && negb (filters.COMMAND (effective_message u)),
     cb_handle_other) ].

Definition dispatch_update (u : Update) : option Callback :=
  snd <$> List.find (fun h => fst h u) update_handlers.

(** What the application does with one update. *)
Definition handle_update (w : World) (u : Update) (st : State) : Ending * State :=
  match dispatch_update u with
  | Some cb => callback_on cb w u st
  | None => (Ran (Returned tt), st)
  end.

(** * Properties *)

(** ** Strings *)

Example split_clip_WAV : PyStr.split "."%char "clip.WAV" = ["clip"; "WAV"].
Proof. reflexivity. Qed.

Example split_two_dots : PyStr.split "."%char "a.tar.gz" = ["a"; "tar"; "gz"].
Proof. reflexivity. Qed.

Example split_empty : PyStr.split "."%char "" = [""].
Proof. reflexivity. Qed.

Example str_int_negative : PyStr.str_int (-1001234) = "-1001234".
Proof. reflexivity. Qed.

Example str_int_zero : PyStr.str_int 0 = "0".
Proof. reflexivity. Qed.

Example strip_spaces :
  PyStr.strip (" " ++ PyStr.nl ++ " hi there  " ++ PyStr.nl) = "hi there".
Proof. vm_compute. reflexivity. Qed.

Example strip_no_break_space : PyStr.strip (PyStr.bytes [194; 160; 32]%N) = "".
Proof. vm_compute. reflexivity. Qed.

Example contains_signature :
  PyStr.contains quality_signature "Error code: 400 - Could not process audio" = true.
Proof. vm_compute. reflexivity. Qed.

Example file_path_voice : file_path voice_message "ogg" = "voice_-1001234_7.ogg".
Proof. vm_compute. reflexivity. Qed.

Lemma append_cons c s t : String c s ++ t = String c (s ++ t).
Proof. reflexivity. Qed.

Lemma append_nil_l s : EmptyString ++ s = s.
Proof. reflexivity. Qed.

Lemma append_nil_r s : s ++ EmptyString = s.
Proof. induction s as [|c s IH]; [reflexivity|]. now rewrite append_cons, IH. Qed.

Lemma append_assoc s t u : (s ++ t) ++ u = s ++ (t ++ u).
Proof.
  induction s as [|c s IH]; [reflexivity|].
  now rewrite !append_cons, IH.
Qed.

Section Split.

Variable sep : ascii.

Lemma split_not_nil s : PyStr.split sep s <> [].
Proof.
  destruct s as [|c s]; cbn; [discriminate|].
  destruct (Ascii.eqb c sep); [discriminate|].
  destruct (PyStr.split sep s); discriminate.
Qed.

Lemma split_no_sep s :
  Forall (fun piece => PyStr.has_char sep piece = false) (PyStr.split sep s).
Proof.
  induction s as [|c s IH]; cbn.
  - repeat constructor.
  - destruct (Ascii.eqb c sep) eqn:E.
    + constructor; [reflexivity | exact IH].
    + destruct (PyStr.split sep s) as [|piece pieces].
      * repeat constructor. cbn. now rewrite E.
      * inversion IH; subst. constructor; [|assumption].
        cbn. now rewrite E.
Qed.

Lemma join_split s : PyStr.join sep (PyStr.split sep s) = s.
Proof.
  induction s as [|c s IH]; cbn [PyStr.split]; [reflexivity|].
  pose proof (split_not_nil s) as Hnil.
  destruct (PyStr.split sep s) as [|piece pieces]; [contradiction|].
  destruct (Ascii.eqb_spec c sep) as [->|Hne].
  - change (PyStr.join sep (EmptyString :: piece :: pieces))
      with (String sep (PyStr.join sep (piece :: pieces))).
    now rewrite IH.
  - rewrite <- IH. destruct pieces; reflexivity.
Qed.

Lemma join_last l :
  l <> [] ->
  PyStr.join sep l = List.last l EmptyString \/
  exists stem, PyStr.join sep l = stem ++ String sep (List.last l EmptyString).
Proof.
  induction l as [|piece rest IH]; [contradiction|]. intros _.
  destruct rest as [|piece' rest]; [now left|].
  right.
  change (List.last (piece :: piece' :: rest) EmptyString)
    with (List.last (piece' :: rest) EmptyString).
  change (PyStr.join sep (piece :: piece' :: rest))
    with (piece ++ String sep (PyStr.join sep (piece' :: rest))).
  destruct IH as [IH | [stem IH]]; [discriminate| |]; rewrite IH.
  - now exists piece.
  - exists (piece ++ String sep stem).
    now rewrite append_assoc, append_cons.
Qed.

Lemma split_without_sep s :
  PyStr.has_char sep s = false -> PyStr.split sep s = [s].
Proof.
  induction s as [|c s IH]; cbn; [reflexivity|].
  intros H. apply orb_false_iff in H as [Hc Hs].
  rewrite Hc, (IH Hs). reflexivity.
Qed.

End Split.

(** ** Extension inference *)

Lemma extension_of_named name fallback :
  name <> EmptyString ->
  extension_of (Some name) fallback = List.last (PyStr.split "."%char name) EmptyString.
Proof. destruct name; [contradiction | reflexivity]. Qed.

Lemma extension_of_unnamed file_name fallback :
  PyStr.truthy file_name = false -> extension_of file_name fallback = fallback.
Proof. intros H. unfold extension_of. rewrite H. now destruct file_name. Qed.

Lemma extension_of_suffix name fallback :
  name <> EmptyString -> last_suffix name (extension_of (Some name) fallback).
Proof.
  intros Hname. rewrite (extension_of_named _ _ Hname). split.
  - pose proof (split_no_sep "."%char name) as Hall.
    pose proof (split_not_nil "."%char name) as Hnil.
    induction Hall as [|piece pieces Hp Hrest IH]; [contradiction|].
    destruct pieces as [|piece' pieces]; [exact Hp|].
    apply IH. discriminate.
  - destruct (join_last "."%char _ (split_not_nil "."%char name)) as [H | [stem H]];
      rewrite join_split in H; [now left | right; now exists stem].
Qed.

Lemma extension_of_dotless name fallback :
  name <> EmptyString -> PyStr.has_char "."%char name = false ->
  extension_of (Some name) fallback = name.
Proof.
  intros Hname Hdot.
  now rewrite (extension_of_named _ _ Hname), (split_without_sep _ _ Hdot).
Qed.

Lemma classify_voice m v :
  voice m = Some v -> classify m = Accepted (voice_file_id v) "ogg".
Proof. intros H. unfold classify. now rewrite H. Qed.

Lemma classify_audio m a :
  voice m = None -> audio m = Some a ->
  classify m = Accepted (audio_file_id a) (extension_of (audio_file_name a) "mp3").
Proof. intros Hv Ha. unfold classify. now rewrite Hv, Ha. Qed.

Lemma classify_document m d mime :
  voice m = None -> audio m = None -> document m = Some d ->
  document_mime_type d = Some mime -> PyStr.startswith mime "audio/" = true ->
  classify m = Accepted (document_file_id d) (extension_of (document_file_name d) "ogg").
Proof.
  intros Hv Ha Hd Hm Hp. unfold classify. rewrite Hv, Ha, Hd, Hm.
  change (default EmptyString (Some mime)) with mime. now rewrite Hp.
Qed.

Lemma classify_other_document m d :
  voice m = None -> audio m = None -> document m = Some d ->
  PyStr.startswith (default EmptyString (document_mime_type d)) "audio/" = false ->
  classify m = Unsupported.
Proof. intros Hv Ha Hd Hp. unfold classify. now rewrite Hv, Ha, Hd, Hp. Qed.

(** C6.  A voice attachment always gets the extension [ogg]; an audio
    attachment, or a document attachment of an audio MIME type, with a
    declared (non-empty) file name gets the last dot-separated piece of
    that name, unchanged ([clip.WAV] gives [WAV]); without a declared
    file name the extension is a constant, [mp3] for an audio attachment
    and [ogg] for a document. *)
Theorem extension_inference :
  (forall m v, voice m = Some v -> classify m = Accepted (voice_file_id v) "ogg") /\
  (forall m a name,
      voice m = None -> audio m = Some a ->
      audio_file_name a = Some name -> name <> EmptyString ->
      exists ext, classify m = Accepted (audio_file_id a) ext /\ last_suffix name ext) /\
  (forall m d mime name,
      voice m = None -> audio m = None -> document m = Some d ->
      document_mime_type d = Some mime -> PyStr.startswith mime "audio/" = true ->
      document_file_name d = Some name -> name <> EmptyString ->
      exists ext, classify m = Accepted (document_file_id d) ext /\ last_suffix name ext) /\
  (forall m a,
      voice m = None -> audio m = Some a -> audio_file_name a = Some "clip.WAV" ->
      classify m = Accepted (audio_file_id a) "WAV") /\
  (forall m a,
      voice m = None -> audio m = Some a -> PyStr.truthy (audio_file_name a) = false ->
      classify m = Accepted (audio_file_id a) "mp3") /\
  (forall m d mime,
      voice m = None -> audio m = None -> document m = Some d ->
      document_mime_type d = Some mime -> PyStr.startswith mime "audio/" = true ->
      PyStr.truthy (document_file_name d) = false ->
      classify m = Accepted (document_file_id d) "ogg").
Proof.
  repeat split.
  - apply classify_voice.
  - intros m a name Hv Ha Hn Hne. eexists. split; [now apply classify_audio|].
    rewrite Hn. now apply extension_of_suffix.
  - intros m d mime name Hv Ha Hd Hm Hp Hn Hne. eexists.
    split; [now apply (classify_document m d mime)|].
    rewrite Hn. now apply extension_of_suffix.
  - intros m a Hv Ha Hn. rewrite (classify_audio m a Hv Ha), Hn. reflexivity.
  - intros m a Hv Ha Hn. rewrite (classify_audio m a Hv Ha).
    now rewrite extension_of_unnamed.
  - intros m d mime Hv Ha Hd Hm Hp Hn. rewrite (classify_document m d mime); auto.
    now rewrite extension_of_unnamed.
Qed.

Lemma extension_inference_witness :
  exists ext,
    classify (audio_message (Some "clip.WAV")) = Accepted "CQACAgIAAxkBAAIC" ext /\
    last_suffix "clip.WAV" ext.
Proof.
  exact (proj1 (proj2 extension_inference)
           (audio_message (Some "clip.WAV"))
           {| audio_file_id := "CQACAgIAAxkBAAIC"; audio_file_name := Some "clip.WAV" |}
           "clip.WAV" eq_refl eq_refl eq_refl ltac:(discriminate)).
Defined.

(** C10.  The fallback extension depends on the kind of attachment:
    [mp3] for an audio attachment without a file name, [ogg] for a
    document without a file name; and a declared (non-empty) file name
    without a dot is taken whole as the extension. *)
Theorem fallback_by_kind_and_dotless_name :
  (forall m a,
      voice m = None -> audio m = Some a -> audio_file_name a = None ->
      classify m = Accepted (audio_file_id a) "mp3") /\
  (forall m d mime,
      voice m = None -> audio m = None -> document m = Some d ->
      document_mime_type d = Some mime -> PyStr.startswith mime "audio/" = true ->
      document_file_name d = None ->
      classify m = Accepted (document_file_id d) "ogg") /\
  (forall m a name,
      voice m = None -> audio m = Some a -> audio_file_name a = Some name ->
      name <> EmptyString -> PyStr.has_char "."%char name = false ->
      classify m = Accepted (audio_file_id a) name) /\
  (forall m d mime name,
      voice m = None -> audio m = None -> document m = Some d ->
      document_mime_type d = Some mime -> PyStr.startswith mime "audio/" = true ->
      document_file_name d = Some name ->
      name <> EmptyString -> PyStr.has_char "."%char name = false ->
      classify m = Accepted (document_file_id d) name).
Proof.
  repeat split.
  - intros m a Hv Ha Hn. now rewrite (classify_audio m a Hv Ha), Hn.
  - intros m d mime Hv Ha Hd Hm Hp Hn.
    rewrite (classify_document m d mime); auto. now rewrite Hn.
  - intros m a name Hv Ha Hn Hne Hdot.
    rewrite (classify_audio m a Hv Ha), Hn. now rewrite extension_of_dotless.
  - intros m d mime name Hv Ha Hd Hm Hp Hn Hne Hdot.
    rewrite (classify_document m d mime); auto. rewrite Hn.
    now rewrite extension_of_dotless.
Qed.

Lemma fallback_by_kind_and_dotless_name_witness :
  classify (audio_message None) = Accepted "CQACAgIAAxkBAAIC" "mp3" /\
  classify (document_message None (Some "audio/mpeg")) = Accepted "BQACAgIAAxkBAAID" "ogg" /\
  classify (audio_message (Some "clip")) = Accepted "CQACAgIAAxkBAAIC" "clip".
Proof.
  split; [|split].
  - exact (proj1 fallback_by_kind_and_dotless_name
             (audio_message None)
             {| audio_file_id := "CQACAgIAAxkBAAIC"; audio_file_name := None |}
             eq_refl eq_refl eq_refl).
  - exact (proj1 (proj2 fallback_by_kind_and_dotless_name)
             (document_message None (Some "audio/mpeg"))
             {| document_file_id := "BQACAgIAAxkBAAID"; document_file_name := None;
                document_mime_type := Some "audio/mpeg" |}
             "audio/mpeg" eq_refl eq_refl eq_refl eq_refl eq_refl eq_refl).
  - exact (proj1 (proj2 (proj2 fallback_by_kind_and_dotless_name))
             (audio_message (Some "clip"))
             {| audio_file_id := "CQACAgIAAxkBAAIC"; audio_file_name := Some "clip" |}
             "clip" eq_refl eq_refl eq_refl ltac:(discriminate) eq_refl).
Defined.

(** ** The path of the temporary file *)

Lemma string_of_uint_plain c d :
  c = "_"%char \/ c = "."%char ->
  PyStr.has_char c (NilEmpty.string_of_uint d) = false.
Proof.
  intros Hc. induction d; cbn [NilEmpty.string_of_uint PyStr.has_char];
    rewrite ?IHd; destruct Hc as [-> | ->]; reflexivity.
Qed.

Lemma str_int_plain c z :
  c = "_"%char \/ c = "."%char -> PyStr.has_char c (PyStr.str_int z) = false.
Proof.
  intros Hc. unfold PyStr.str_int.
  assert (Hu : forall d, PyStr.has_char c (NilZero.string_of_uint d) = false).
  { intros d. pose proof (string_of_uint_plain c d Hc) as H.
    destruct d; try exact H. destruct Hc as [-> | ->]; reflexivity. }
  destruct z as [|p|p]; cbn [Z.to_int NilZero.string_of_int PyStr.has_char].
  - destruct Hc as [-> | ->]; reflexivity.
  - apply Hu.
  - rewrite Hu. destruct Hc as [-> | ->]; reflexivity.
Qed.

Lemma to_int_not_nil z : Z.to_int z <> Decimal.Pos Decimal.Nil /\ Z.to_int z <> Decimal.Neg Decimal.Nil.
Proof.
  destruct z as [|p|p]; cbn; split; try discriminate;
    intros [= H]; exact (Unsigned.to_uint_nonnil p H).
Qed.

Lemma str_int_inj a b : PyStr.str_int a = PyStr.str_int b -> a = b.
Proof.
  unfold PyStr.str_int. intros H.
  apply (f_equal NilZero.int_of_string) in H.
  destruct (to_int_not_nil a) as [Ha1 Ha2], (to_int_not_nil b) as [Hb1 Hb2].
  rewrite !NilZero.isi in H by assumption.
  injection H as H. apply (f_equal Z.of_int) in H.
  now rewrite !DecimalZ.of_to in H.
Qed.

(** Two strings without the character [c], each followed by [c] and
    more text, can only agree when they are equal. *)
Lemma cut_at_first c u u' r r' :
  PyStr.has_char c u = false -> PyStr.has_char c u' = false ->
  u ++ String c r = u' ++ String c r' -> u = u' /\ r = r'.
Proof.
  revert u'. induction u as [|a u IH]; intros [|a' u'] Hu Hu'; rewrite ?append_cons, ?append_nil_l.
  - intros [= ->]. now split.
  - intros [= <- _]. cbn in Hu'. now rewrite Ascii.eqb_refl in Hu'.
  - intros [= -> _]. cbn in Hu. now rewrite Ascii.eqb_refl in Hu.
  - intros [= -> H]. cbn in Hu, Hu'.
    apply orb_false_iff in Hu as [_ Hu]. apply orb_false_iff in Hu' as [_ Hu'].
    destruct (IH u' Hu Hu' H) as [-> ->]. now split.
Qed.

Lemma file_path_unfold m ext :
  file_path m ext =
  "voice_" ++ PyStr.str_int (chat_id m) ++ String "_"%char
    (PyStr.str_int (message_id m) ++ String "."%char ext).
Proof.
  unfold file_path, PyStr.cat. cbn [List.fold_right].
  now rewrite append_nil_r.
Qed.

Lemma file_path_inj m1 ext1 m2 ext2 :
  file_path m1 ext1 = file_path m2 ext2 ->
  chat_id m1 = chat_id m2 /\ message_id m1 = message_id m2 /\ ext1 = ext2.
Proof.
  rewrite !file_path_unfold. intros H.
  apply (inj (String.append "voice_")) in H.
  apply cut_at_first in H as [Hc H]; try (apply str_int_plain; now left).
  apply cut_at_first in H as [Hm He]; try (apply str_int_plain; now right).
  split; [|split]; auto using str_int_inj.
Qed.

(** Distinct messages never share a temporary file, whatever their
    extensions. *)
Lemma file_path_distinct m1 ext1 m2 ext2 :
  (chat_id m1, message_id m1) <> (chat_id m2, message_id m2) ->
  file_path m1 ext1 <> file_path m2 ext2.
Proof.
  intros Hne H. apply file_path_inj in H as (Hc & Hm & _).
  apply Hne. now rewrite Hc, Hm.
Qed.

(** ** Runs of [handle_voice] *)

(** Unfold the handler down to the answers of the world. *)
Ltac expose :=
  cbv beta iota zeta delta
    [handle_voice process pipeline on_exception bind try_except ret
     get_file reply_text edit_text transcribe summarize logger_error remote
     download_to_drive open_rb os_path_exists os_remove index0
     record_event add_file del_file initial files trace
     acknowledged edits_tried is_edit action List.filter List.length List.app].

(** A file that was just written is there. *)
Ltac member :=
  repeat match goal with
  | |- context [bool_decide (?p ∈ {[ ?p ]} ∪ ?s)] =>
      rewrite (bool_decide_eq_true_2 (p ∈ {[ p ]} ∪ s)) by set_solver
  end.

(** Split on the next answer of the world. *)
Ltac branch :=
  match goal with
  | |- context [match get_file_result ?w ?a with _ => _ end] =>
      destruct (get_file_result w a) as [[]|?] eqn:?
  | |- context [match reply_text_result ?w ?a with _ => _ end] =>
      destruct (reply_text_result w a) as [[]|?] eqn:?
  | |- context [match download_result ?w ?a with _ => _ end] =>
      destruct (download_result w a) as [|?|?] eqn:?
  | |- context [match transcribe_result ?w ?a with _ => _ end] =>
      destruct (transcribe_result w a) as [?|?] eqn:?
  | |- context [if blank ?t then _ else _] =>
      destruct (blank t) eqn:?
  | |- context [match summarize_result ?w ?a with _ => _ end] =>
      destruct (summarize_result w a) as [[|? ?]|?] eqn:?
  | |- context [match edit_text_result ?w ?n ?a with _ => _ end] =>
      destruct (edit_text_result w n a) as [[]|?] eqn:?
  | |- context [if bool_decide (?p ∈ ?s) then _ else _] =>
      destruct (bool_decide (p ∈ s)) eqn:?
  end.

(** All the runs of the handler, one goal each. *)
Ltac runs := expose; repeat (member; branch; expose); member.

(** Membership in a working directory built by unions and differences. *)
Ltac in_files :=
  rewrite ?elem_of_difference, ?elem_of_union, ?elem_of_singleton in *;
  intuition congruence.

Ltac decided :=
  repeat match goal with
  | H : bool_decide _ = true |- _ => apply bool_decide_eq_true in H
  | H : bool_decide _ = false |- _ => apply bool_decide_eq_false in H
  end.

(** Close a decidable statement about a concrete run by evaluation. *)
Ltac evaluated :=
  match goal with |- ?P => apply (bool_decide_unpack P); vm_compute; exact I end.

(** A handler that returns leaves no temporary file behind. *)
Lemma returned_without_file w m fs file_id ext :
  classify m = Accepted file_id ext ->
  (handle_voice w m (initial fs)).1 = Returned tt ->
  file_path m ext ∉ files (handle_voice w m (initial fs)).2.
Proof.
  intros Hc. unfold handle_voice. rewrite Hc.
  runs; cbn [fst snd]; intros Hret; first [discriminate Hret | decided; in_files].
Qed.

(** A temporary file written by the handler is left behind only when the
    handler ends with the exception of an edit of the status reply. *)
Lemma file_left_by_failed_edit w m fs file_id ext :
  classify m = Accepted file_id ext ->
  file_path m ext ∉ fs ->
  file_path m ext ∈ files (handle_voice w m (initial fs)).2 ->
  exists msg,
    (handle_voice w m (initial fs)).1 = Raised {| exc_origin := c_edit_text; exc_str := msg |}.
Proof.
  intros Hc Hfs. unfold handle_voice. rewrite Hc.
  runs; cbn [fst snd]; intros Hleft; decided; first [exfalso; in_files | eauto].
Qed.

(** C1.  The temporary file can outlive the handler.  The speech-to-text
    call fails, the [except] clause then tries to edit the status reply,
    that edit raises too, and the clean-up that follows it (lines
    157-159) is never reached: the handler ends with the exception of
    the edit and the file it downloaded is still in the working
    directory. *)
Theorem temporary_file_outlives_handler :
  let r := handle_voice offline_world voice_message (initial ∅) in
  let path := file_path voice_message "ogg" in
  classify voice_message = Accepted "AwACAgIAAxkBAAIB" "ogg" /\
  trace r.2 =
    [ {| action := a_get_file "AwACAgIAAxkBAAIB"; raised := false |};
      {| action := a_reply_text processing_text; raised := false |};
      {| action := a_download_to_drive path; raised := false |};
      {| action := a_open path; raised := false |};
      {| action := a_transcribe (transcription_request path); raised := true |};
      {| action := a_log_error ("Ошибка при обработке: " ++ "Request timed out.");
         raised := false |};
      {| action := a_edit_text generic_error_message; raised := true |} ] /\
  r.1 = Raised {| exc_origin := c_edit_text; exc_str := "Message to edit not found" |} /\
  path ∈ files r.2.
Proof.
  cbv zeta. split; [reflexivity|]. split; [|split].
  - vm_compute. reflexivity.
  - vm_compute. reflexivity.
  - evaluated.
Qed.

(** C3, as stated, fails: when the file lookup raises (line 71, 74 or
    85, before the acknowledgement and outside the [try]), an audio
    event gets no status reply at all. *)
Lemma oversize_audio_gets_no_status_reply :
  ~ (forall w m fs file_id ext,
        classify m = Accepted file_id ext ->
        List.length (sent (trace (handle_voice w m (initial fs)).2)) = 1%nat /\
        (List.length (edited (trace (handle_voice w m (initial fs)).2)) <= 1)%nat).
Proof.
  intros H.
  destruct (H oversize_world voice_message ∅ _ _ eq_refl) as [Hsent _].
  vm_compute in Hsent. discriminate Hsent.
Qed.

(** C3, amended.  For every audio event at most one message is sent and
    at most one edit of it is accepted, on every branch; the message is
    the status reply, it is sent exactly once when the file lookup and
    the send succeed, and not at all when the file lookup fails. *)
Theorem status_reply_sent_and_edited_at_most_once w m fs file_id ext :
  classify m = Accepted file_id ext ->
  let t := trace (handle_voice w m (initial fs)).2 in
  (List.length (List.filter is_send t) <= 1)%nat /\
  (List.length (edited t) <= 1)%nat /\
  (get_file_result w file_id = Ok tt ->
   reply_text_result w processing_text = Ok tt ->
   sent t = [ {| action := a_reply_text processing_text; raised := false |} ]) /\
  (forall msg, get_file_result w file_id = Fails msg -> sent t = []).
Proof.
  intros Hc. unfold handle_voice. rewrite Hc.
  runs; cbn; repeat split; try lia; try discriminate; try reflexivity;
    intros; discriminate.
Qed.

Lemma status_reply_sent_and_edited_at_most_once_witness :
  let t := trace (handle_voice fair_world voice_message (initial ∅)).2 in
  (List.length (List.filter is_send t) <= 1)%nat /\
  (List.length (edited t) <= 1)%nat /\
  (get_file_result fair_world "AwACAgIAAxkBAAIB" = Ok tt ->
   reply_text_result fair_world processing_text = Ok tt ->
   sent t = [ {| action := a_reply_text processing_text; raised := false |} ]) /\
  (forall msg, get_file_result fair_world "AwACAgIAAxkBAAIB" = Fails msg -> sent t = []).
Proof.
  exact (status_reply_sent_and_edited_at_most_once
           fair_world voice_message ∅ "AwACAgIAAxkBAAIB" "ogg" eq_refl).
Defined.

(** C8.  The temporary file is named [voice_<chat-id>_<message-id>.<ext>]:
    every path the handler downloads to, opens, sends for transcription
    or removes is that string, built from the chat identifier, the
    message identifier and the inferred extension of the event; and two
    events with distinct (chat identifier, message identifier) pairs get
    distinct paths. *)
Theorem temporary_file_path :
  (forall m ext,
      file_path m ext =
      "voice_" ++ PyStr.str_int (chat_id m) ++ "_" ++ PyStr.str_int (message_id m)
        ++ "." ++ ext) /\
  (forall w m fs,
      Forall (fun ev => forall p, path_of ev = Some p ->
                exists file_id ext,
                  classify m = Accepted file_id ext /\ p = file_path m ext)
             (trace (handle_voice w m (initial fs)).2)) /\
  (forall m1 ext1 m2 ext2,
      (chat_id m1, message_id m1) <> (chat_id m2, message_id m2) ->
      file_path m1 ext1 <> file_path m2 ext2).
Proof.
  split; [|split].
  - intros m ext. apply file_path_unfold.
  - intros w m fs. unfold handle_voice.
    destruct (classify m) as [|file_id ext] eqn:Hc.
    + expose. destruct (reply_text_result w unsupported_message) as [[]|?];
        repeat constructor; discriminate.
    + runs; cbn [fst snd]; repeat constructor; cbn [path_of action tr_file transcription_request];
        intros p Hp; first [discriminate Hp | injection Hp as <-; eauto].
  - apply file_path_distinct.
Qed.

Lemma temporary_file_path_witness :
  file_path voice_message "ogg" <> file_path (audio_message None) "ogg".
Proof.
  apply (proj2 (proj2 temporary_file_path)). vm_compute. discriminate.
Defined.

(** ** Blank transcripts *)

Lemma drop_space_whitespace w rest :
  In w PyStr.whitespace -> PyStr.drop_space PyStr.whitespace (w ++ rest) = Some rest.
Proof.
  intros H. vm_compute in H.
  repeat (destruct H as [<- | H]; [reflexivity|]).
  contradiction.
Qed.

Lemma lstrip_fuel_whitespace pieces fuel :
  Forall (fun p => In p PyStr.whitespace) pieces ->
  (List.length pieces <= fuel)%nat ->
  PyStr.lstrip_fuel PyStr.whitespace fuel (PyStr.cat pieces) = EmptyString.
Proof.
  intros Hall. revert fuel. induction Hall as [|w pieces Hw Hrest IH]; intros fuel Hfuel.
  - destruct fuel; reflexivity.
  - destruct fuel as [|fuel]; [cbn in Hfuel; lia|].
    change (PyStr.cat (w :: pieces)) with (w ++ PyStr.cat pieces).
    cbn [PyStr.lstrip_fuel]. rewrite (drop_space_whitespace _ _ Hw).
    apply IH. cbn in Hfuel. lia.
Qed.

Lemma length_append s t : String.length (s ++ t) = (String.length s + String.length t)%nat.
Proof.
  induction s as [|c s IH]; [reflexivity|].
  rewrite append_cons. cbn [String.length]. now rewrite IH.
Qed.

Lemma whitespace_not_empty w : In w PyStr.whitespace -> (1 <= String.length w)%nat.
Proof.
  intros H. vm_compute in H.
  repeat (destruct H as [<- | H]; [cbn; lia|]).
  contradiction.
Qed.

Lemma pieces_within_length pieces :
  Forall (fun p => In p PyStr.whitespace) pieces ->
  (List.length pieces <= String.length (PyStr.cat pieces))%nat.
Proof.
  induction 1 as [|w pieces Hw Hrest IH]; [cbn; lia|].
  change (PyStr.cat (w :: pieces)) with (w ++ PyStr.cat pieces).
  rewrite length_append. pose proof (whitespace_not_empty w Hw). cbn [List.length]. lia.
Qed.

(** The test of line 113 holds for the empty string and for every string
    of white space. *)
Lemma blank_whitespace t :
  t = EmptyString \/ whitespace_only t -> blank t = true.
Proof.
  intros [-> | (pieces & Hall & ->)]; [reflexivity|].
  unfold blank, PyStr.strip, PyStr.lstrip.
  rewrite lstrip_fuel_whitespace by auto using pieces_within_length.
  apply orb_true_r.
Qed.

Lemma blank_empty t : blank t = false -> t <> EmptyString.
Proof. intros H ->. discriminate H. Qed.

(** ** The empty-transcript branch *)

(** C4, as stated, fails: when the chat refuses the edit to the "speech
    not recognized" text, that refusal is an exception inside the [try];
    the handler logs it and edits the status reply to an error text
    instead. *)
Lemma refused_edit_of_blank_transcript :
  ~ (forall w m fs file_id ext transcript_text,
        classify m = Accepted file_id ext ->
        get_file_result w file_id = Ok tt ->
        reply_text_result w processing_text = Ok tt ->
        download_result w (file_path m ext) = Downloaded ->
        transcribe_result w (transcription_request (file_path m ext)) = Ok transcript_text ->
        transcript_text = EmptyString \/ whitespace_only transcript_text ->
        edited (trace (handle_voice w m (initial fs)).2)
        = [ {| action := a_edit_text not_recognized_message; raised := false |} ] /\
        List.filter is_log (trace (handle_voice w m (initial fs)).2) = [] /\
        (handle_voice w m (initial fs)).1 = Returned tt /\
        (file_path m ext ∉ files (handle_voice w m (initial fs)).2) /\
        List.filter is_summarize (trace (handle_voice w m (initial fs)).2) = []).
Proof.
  intros H.
  destruct (H fussy_silent_world voice_message ∅ "AwACAgIAAxkBAAIB" "ogg" (" " ++ PyStr.nl))
    as (_ & Hlog & _); try reflexivity.
  - right. exists [" "; PyStr.nl]. split; [|reflexivity].
    repeat constructor; vm_compute; tauto.
  - vm_compute in Hlog. discriminate Hlog.
Qed.

(** C4, amended.  When the speech-to-text service returns an empty or
    white-space transcript, the language model is not called and the
    first edit the handler tries is the fixed "speech not recognized"
    message.  When the chat accepts that edit, the handler removes the
    temporary file and returns normally, having made exactly the calls
    listed.  When the chat refuses it, the refusal is handled like any
    other exception of the [try]: it is logged and an edit to the error
    text follows; when that edit is accepted the file is removed and the
    handler returns. *)
Theorem blank_transcript_is_not_summarized w m fs file_id ext transcript_text :
  classify m = Accepted file_id ext ->
  get_file_result w file_id = Ok tt ->
  reply_text_result w processing_text = Ok tt ->
  download_result w (file_path m ext) = Downloaded ->
  transcribe_result w (transcription_request (file_path m ext)) = Ok transcript_text ->
  transcript_text = EmptyString \/ whitespace_only transcript_text ->
  let r := handle_voice w m (initial fs) in
  let path := file_path m ext in
  List.filter is_summarize (trace r.2) = [] /\
  (exists rejected,
      List.hd_error (List.filter is_edit (trace r.2))
      = Some {| action := a_edit_text not_recognized_message; raised := rejected |}) /\
  (edit_text_result w 0 not_recognized_message = Ok tt ->
   r.1 = Returned tt /\
   (path ∉ files r.2) /\
   trace r.2 =
     [ {| action := a_get_file file_id; raised := false |};
       {| action := a_reply_text processing_text; raised := false |};
       {| action := a_download_to_drive path; raised := false |};
       {| action := a_open path; raised := false |};
       {| action := a_transcribe (transcription_request path); raised := false |};
       {| action := a_edit_text not_recognized_message; raised := false |};
       {| action := a_remove path; raised := false |} ]) /\
  (forall msg,
      edit_text_result w 0 not_recognized_message = Fails msg ->
      exists rejected cleanup,
        trace r.2 =
          ([ {| action := a_get_file file_id; raised := false |};
             {| action := a_reply_text processing_text; raised := false |};
             {| action := a_download_to_drive path; raised := false |};
             {| action := a_open path; raised := false |};
             {| action := a_transcribe (transcription_request path); raised := false |};
             {| action := a_edit_text not_recognized_message; raised := true |};
             {| action := a_log_error ("Ошибка при обработке: " ++ msg)%string;
                raised := false |};
             {| action := a_edit_text
                            (error_message {| exc_origin := c_edit_text; exc_str := msg |});
                raised := rejected |} ] ++ cleanup)%list /\
        (rejected = false ->
         cleanup = [ {| action := a_remove path; raised := false |} ] /\
         r.1 = Returned tt /\
         (path ∉ files r.2))).
Proof.
  intros Hc Hget Hreply Hdown Htext Hblank%blank_whitespace.
  unfold handle_voice. rewrite Hc.
  runs; cbn [fst snd]; try congruence;
    (split; [reflexivity | split; [eexists; reflexivity|]]);
    (split;
     [ intros Hedit; first [congruence | repeat split; in_files]
     | intros msg' Hmsg;
       first
         [ discriminate Hmsg
         | injection Hmsg as <-; eexists _, _; (split; [reflexivity|]);
           intros Hrej;
           first [discriminate Hrej | repeat split; first [reflexivity | in_files]] ] ]).
Qed.

Lemma blank_transcript_is_not_summarized_witness :
  let r := handle_voice silent_world voice_message (initial ∅) in
  let path := file_path voice_message "ogg" in
  List.filter is_summarize (trace r.2) = [] /\
  r.1 = Returned tt /\
  (path ∉ files r.2) /\
  trace r.2 =
    [ {| action := a_get_file "AwACAgIAAxkBAAIB"; raised := false |};
      {| action := a_reply_text processing_text; raised := false |};
      {| action := a_download_to_drive path; raised := false |};
      {| action := a_open path; raised := false |};
      {| action := a_transcribe (transcription_request path); raised := false |};
      {| action := a_edit_text not_recognized_message; raised := false |};
      {| action := a_remove path; raised := false |} ].
Proof.
  assert (Hblank : " " ++ PyStr.nl = EmptyString \/ whitespace_only (" " ++ PyStr.nl)).
  { right. exists [" "; PyStr.nl]. split; [|reflexivity].
    repeat constructor; vm_compute; tauto. }
  destruct (blank_transcript_is_not_summarized
              silent_world voice_message ∅ "AwACAgIAAxkBAAIB" "ogg" (" " ++ PyStr.nl)
              eq_refl eq_refl eq_refl eq_refl eq_refl Hblank)
    as (Hsum & _ & Haccepted & _).
  split; [exact Hsum|]. apply Haccepted. reflexivity.
Defined.

(** ** The [except] clause *)

Lemma messages_differ : low_quality_message <> generic_error_message.
Proof. discriminate. Qed.

Lemma error_message_signature e :
  (error_message e = low_quality_message
   <-> PyStr.contains quality_signature (exc_str e) = true) /\
  (error_message e = generic_error_message
   <-> PyStr.contains quality_signature (exc_str e) = false).
Proof.
  unfold error_message.
  destruct (PyStr.contains quality_signature (exc_str e)); repeat split;
    intros H; try reflexivity; discriminate H.
Qed.





(** ** The call to the language model *)

Lemma user_prompt_unfold t :
  user_prompt t = "Выдели тезисы из следующего текста:" ++ PyStr.nl ++ PyStr.nl ++ t.
Proof. unfold user_prompt, PyStr.cat. cbn [List.fold_right]. now rewrite append_nil_r. Qed.

(** Find the entry of a listed trace that a lookup hits. *)
Ltac at_index H i :=
  cbn [lookup list_lookup] in H;
  first
    [ discriminate H
    | destruct i as [|i];
      [cbn [lookup list_lookup] in H; try discriminate H | at_index H i] ].

(** C9, as stated, fails: the user content sent to the language model is
    not the transcript but a fixed request line followed by it. *)
Lemma user_content_is_not_the_transcript :
  ~ (forall w m fs i req failed,
        trace (handle_voice w m (initial fs)).2 !! i
        = Some {| action := a_summarize req; raised := failed |} ->
        exists transcript_text file_id ext,
          classify m = Accepted file_id ext /\
          transcribe_result w (transcription_request (file_path m ext))
          = Ok transcript_text /\
          transcript_text <> EmptyString /\
          cr_messages req =
            [ {| role := "system"; content := SYSTEM_PROMPT |};
              {| role := "user"; content := transcript_text |} ]).
Proof.
  intros H.
  destruct (H fair_world voice_message ∅ 5%nat (completion_request "hello world") false)
    as (t & file_id & ext & Hc & Ht & _ & Hm).
  - vm_compute. reflexivity.
  - cbn in Ht. injection Ht as <-. vm_compute in Hm. discriminate Hm.
Qed.

(** C9, amended.  The language model is called at most once per run,
    only after a transcription call that returned, and only for a
    transcript that is neither empty nor white space; its user content
    is the fixed request line, an empty line and then the transcript,
    next to the fixed system instruction, with temperature 0.3 and at
    most 1000 output tokens. *)
Theorem summarize_follows_transcribe w m fs i req failed :
  trace (handle_voice w m (initial fs)).2 !! i
  = Some {| action := a_summarize req; raised := failed |} ->
  exists j transcript_text file_id ext,
    classify m = Accepted file_id ext /\
    (j < i)%nat /\
    trace (handle_voice w m (initial fs)).2 !! j
    = Some {| action := a_transcribe (transcription_request (file_path m ext));
              raised := false |} /\
    transcribe_result w (transcription_request (file_path m ext)) = Ok transcript_text /\
    blank transcript_text = false /\
    transcript_text <> EmptyString /\
    ~ whitespace_only transcript_text /\
    cr_messages req =
      [ {| role := "system"; content := SYSTEM_PROMPT |};
        {| role := "user";
           content := "Выдели тезисы из следующего текста:" ++ PyStr.nl ++ PyStr.nl
                      ++ transcript_text |} ] /\
    cr_temperature req = 0.3%Q /\
    cr_max_tokens req = 1000 /\
    (forall k req' failed',
        trace (handle_voice w m (initial fs)).2 !! k
        = Some {| action := a_summarize req'; raised := failed' |} -> k = i).
Proof.
  unfold handle_voice. destruct (classify m) as [|file_id ext] eqn:Hc.
  - expose. destruct (reply_text_result w unsupported_message) as [[]|?];
      cbn [snd]; intros H; at_index H i.
  - runs; cbn [fst snd]; intros H; at_index H i;
      injection H as <- <-;
      match goal with
      | Ht : transcribe_result _ _ = Ok ?t, Hb : blank ?t = false |- _ =>
          exists 4%nat, t, file_id, ext;
          repeat split;
          [ lia | exact Ht | exact Hb | exact (blank_empty _ Hb)
          | intros Hw; rewrite blank_whitespace in Hb by (now right); discriminate Hb
          | cbn [cr_messages completion_request]; now rewrite user_prompt_unfold
          | intros k req' failed' Hk; at_index Hk k; reflexivity ]
      end.
Qed.

Lemma summarize_follows_transcribe_witness :
  exists j transcript_text file_id ext,
    classify voice_message = Accepted file_id ext /\
    (j < 5)%nat /\
    trace (handle_voice fair_world voice_message (initial ∅)).2 !! j
    = Some {| action := a_transcribe (transcription_request (file_path voice_message ext));
              raised := false |} /\
    transcribe_result fair_world (transcription_request (file_path voice_message ext))
    = Ok transcript_text /\
    blank transcript_text = false /\
    transcript_text <> EmptyString /\
    ~ whitespace_only transcript_text /\
    cr_messages (completion_request "hello world") =
      [ {| role := "system"; content := SYSTEM_PROMPT |};
        {| role := "user";
           content := "Выдели тезисы из следующего текста:" ++ PyStr.nl ++ PyStr.nl
                      ++ transcript_text |} ] /\
    cr_temperature (completion_request "hello world") = 0.3%Q /\
    cr_max_tokens (completion_request "hello world") = 1000 /\
    (forall k req' failed',
        trace (handle_voice fair_world voice_message (initial ∅)).2 !! k
        = Some {| action := a_summarize req'; raised := failed' |} -> k = 5%nat).
Proof.
  apply (summarize_follows_transcribe
           fair_world voice_message ∅ 5%nat (completion_request "hello world") false).
  vm_compute. reflexivity.
Defined.

(** ** The router *)

(** A document that is not audio, in a message without text, is given to
    no handler. *)
Lemma other_document_not_dispatched m d :
  voice m = None -> audio m = None -> document m = Some d ->
  PyStr.startswith (default EmptyString (document_mime_type d)) "audio/" = false ->
  PyStr.truthy (text m) = false ->
  dispatch m = None.
Proof.
  intros Hv Ha Hd Hmime Htext.
  unfold dispatch, handlers. cbn [List.find fst snd].
  unfold filters.Command, filters.VOICE, filters.AUDIO, filters.Document_AUDIO,
    filters.TEXT, filters.COMMAND.
  rewrite Htext, Hv, Ha, Hd. cbn [andb].
  destruct (document_mime_type d) as [mime|]; [|reflexivity].
  change (default EmptyString (Some mime)) with mime in Hmime.
  rewrite Hmime, andb_false_r. reflexivity.
Qed.

(** Called on such a message, [handle_voice] only sends the rejection
    text: no file lookup, no download. *)
Lemma handle_voice_rejects_other_document w m d st :
  voice m = None -> audio m = None -> document m = Some d ->
  PyStr.startswith (default EmptyString (document_mime_type d)) "audio/" = false ->
  handle_voice w m st = reply_text w unsupported_message st.
Proof.
  intros Hv Ha Hd Hmime. unfold handle_voice.
  now rewrite (classify_other_document m d Hv Ha Hd Hmime).
Qed.

(** C2.  A [text/plain] document gets no answer at all: none of the
    handlers registered by [main] accepts it, so the update is dropped
    without any call being made.  The rejection text of [handle_voice]
    (lines 76-84), which would be sent without a download if the handler
    were called, is never sent for such a message. *)
Theorem plain_text_document_is_not_answered w fs :
  let m := document_message (Some "notes.txt") (Some "text/plain") in
  dispatch m = None /\
  process_update w m (initial fs) = (Returned tt, initial fs) /\
  handle_voice w m (initial fs) = reply_text w unsupported_message (initial fs).
Proof.
  cbv zeta.
  assert (Hd : dispatch (document_message (Some "notes.txt") (Some "text/plain")) = None)
    by (apply (other_document_not_dispatched _
                 {| document_file_id := "BQACAgIAAxkBAAID";
                    document_file_name := Some "notes.txt";
                    document_mime_type := Some "text/plain" |}); reflexivity).
  split; [exact Hd|]. split.
  - unfold process_update. rewrite Hd. reflexivity.
  - apply (handle_voice_rejects_other_document _ _
             {| document_file_id := "BQACAgIAAxkBAAID";
                document_file_name := Some "notes.txt";
                document_mime_type := Some "text/plain" |}); reflexivity.
Qed.

(** ** Start-up *)

(** C7, as stated, fails: a secret that is present but empty stops
    [main] like an absent one. *)
Lemma empty_token_does_not_start :
  ~ (forall environ : gmap string string,
        (environ !! "TELEGRAM_BOT_TOKEN" = None \/ environ !! "OPENAI_API_KEY" = None ->
         exists e, main environ = ([], Raised e)) /\
        (is_Some (environ !! "TELEGRAM_BOT_TOKEN") ->
         is_Some (environ !! "OPENAI_API_KEY") ->
         In s_run_polling (main environ).1)).
Proof.
  intros H. destruct (H empty_token) as [_ Hstart].
  assert (Hrun : In s_run_polling (main empty_token).1).
  { apply Hstart; eexists; vm_compute; reflexivity. }
  vm_compute in Hrun. exact Hrun.
Qed.

(** C7, amended.  When one of the two secrets is absent from the
    environment or empty, [main] raises before building the application
    and never reaches the serving loop; when both are present and not
    empty, it builds the application with the token, registers the five
    handlers and starts the serving loop. *)
Theorem startup_requires_both_secrets (environ : gmap string string) :
  (environ !! "TELEGRAM_BOT_TOKEN" = None \/
   environ !! "TELEGRAM_BOT_TOKEN" = Some EmptyString \/
   environ !! "OPENAI_API_KEY" = None \/
   environ !! "OPENAI_API_KEY" = Some EmptyString ->
   exists e, main environ = ([], Raised e)) /\
  (forall token key,
      environ !! "TELEGRAM_BOT_TOKEN" = Some token ->
      environ !! "OPENAI_API_KEY" = Some key ->
      token <> EmptyString -> key <> EmptyString ->
      main environ =
        ([ s_build token;
           s_add_handler cb_start; s_add_handler cb_help_command;
           s_add_handler cb_handle_voice; s_add_handler cb_handle_voice;
           s_add_handler cb_handle_other;
           s_print "VoiceScribe Bot запущен!"; s_run_polling ],
         Returned tt)).
Proof.
  unfold main, getenv. split.
  - intros H.
    destruct (environ !! "TELEGRAM_BOT_TOKEN") as [[|c token]|] eqn:Ht;
      try (eexists; reflexivity).
    destruct (environ !! "OPENAI_API_KEY") as [[|c' key]|] eqn:Hk;
      try (eexists; reflexivity).
    destruct H as [H|[H|[H|H]]]; discriminate H.
  - intros token key -> -> Ht Hk.
    destruct token as [|c token]; [contradiction|].
    destruct key as [|c' key]; [contradiction|]. reflexivity.
Qed.

Lemma startup_requires_both_secrets_witness :
  main both_secrets =
    ([ s_build "123456:ABC-DEF";
       s_add_handler cb_start; s_add_handler cb_help_command;
       s_add_handler cb_handle_voice; s_add_handler cb_handle_voice;
       s_add_handler cb_handle_other;
       s_print "VoiceScribe Bot запущен!"; s_run_polling ],
     Returned tt).
Proof.
  apply (proj2 (startup_requires_both_secrets both_secrets) "123456:ABC-DEF" "sk-test");
    first [vm_compute; reflexivity | discriminate].
Defined.

(** * Further properties of the handlers *)

(** Two answers of the world to the same call agree. *)
Ltac agree :=
  repeat match goal with
  | H : Ok _ = Ok _ |- _ => inversion H; clear H; subst
  | H1 : ?x = Ok ?a, H2 : ?x = Ok ?b |- _ =>
      first
        [ constr_eq a b; clear H2
        | assert (a = b) by congruence; clear H2; subst ]
  end.

(** X1.  When every call succeeds and the transcript is not blank, the
    handler makes exactly eight calls in this order: file lookup,
    acknowledgement, download, open, transcription, summarization, one
    edit with the composed answer, removal of the temporary file; and it
    returns normally with the file gone. *)
Theorem successful_run w m fs file_id ext transcript_text theses more :
  classify m = Accepted file_id ext ->
  get_file_result w file_id = Ok tt ->
  reply_text_result w processing_text = Ok tt ->
  download_result w (file_path m ext) = Downloaded ->
  transcribe_result w (transcription_request (file_path m ext)) = Ok transcript_text ->
  blank transcript_text = false ->
  summarize_result w (completion_request transcript_text) = Ok (theses :: more) ->
  edit_text_result w 0 (result_message transcript_text theses) = Ok tt ->
  let r := handle_voice w m (initial fs) in
  let path := file_path m ext in
  r.1 = Returned tt /\
  (path ∉ files r.2) /\
  trace r.2 =
    [ {| action := a_get_file file_id; raised := false |};
      {| action := a_reply_text processing_text; raised := false |};
      {| action := a_download_to_drive path; raised := false |};
      {| action := a_open path; raised := false |};
      {| action := a_transcribe (transcription_request path); raised := false |};
      {| action := a_summarize (completion_request transcript_text); raised := false |};
      {| action := a_edit_text (result_message transcript_text theses); raised := false |};
      {| action := a_remove path; raised := false |} ].
Proof.
  intros Hc Hget Hreply Hdown Htext Hblank Hsum Hedit.
  unfold handle_voice. rewrite Hc.
  runs; cbn [fst snd]; try congruence; agree; try congruence;
    repeat split; in_files.
Qed.

Lemma successful_run_witness :
  let r := handle_voice fair_world voice_message (initial ∅) in
  let path := file_path voice_message "ogg" in
  r.1 = Returned tt /\
  (path ∉ files r.2) /\
  trace r.2 =
    [ {| action := a_get_file "AwACAgIAAxkBAAIB"; raised := false |};
      {| action := a_reply_text processing_text; raised := false |};
      {| action := a_download_to_drive path; raised := false |};
      {| action := a_open path; raised := false |};
      {| action := a_transcribe (transcription_request path); raised := false |};
      {| action := a_summarize (completion_request "hello world"); raised := false |};
      {| action := a_edit_text (result_message "hello world" (Some "1. hello world"));
         raised := false |};
      {| action := a_remove path; raised := false |} ].
Proof.
  apply (successful_run fair_world voice_message ∅ "AwACAgIAAxkBAAIB" "ogg"
           "hello world" (Some "1. hello world") []);
    vm_compute; reflexivity.
Defined.

(** All the runs of the handler, without the impossible ones in which
    one test of the working directory has two answers. *)
Ltac sound_runs :=
  runs;
  try match goal with
      | H : false = true |- _ => discriminate H
      | H : true = false |- _ => discriminate H
      end.

(** Membership goals about the working directory, with the point at
    hand possibly equal to the path of the temporary file. *)
Ltac in_directory :=
  decided;
  rewrite ?elem_of_difference, ?elem_of_union, ?elem_of_singleton in *;
  intuition (subst; auto; congruence).

(** X2.  When the handler of an audio event returns normally, the
    working directory is what it was before, minus the path of the
    temporary file: the handler removes its file, and also an older file
    that happened to have the same name. *)
Theorem returned_leaves_directory_clean w m fs file_id ext p :
  classify m = Accepted file_id ext ->
  (handle_voice w m (initial fs)).1 = Returned tt ->
  p ∈ files (handle_voice w m (initial fs)).2 <-> p ∈ fs /\ p <> file_path m ext.
Proof.
  intros Hc. unfold handle_voice. rewrite Hc.
  runs; cbn [fst snd]; intros Hret; first [discriminate Hret | in_directory].
Qed.

Lemma returned_leaves_directory_clean_witness :
  "notes.txt" ∈ files (handle_voice fair_world voice_message
                         (initial {[ "notes.txt"; "voice_-1001234_7.ogg" ]})).2
  <-> "notes.txt" ∈ ({[ "notes.txt"; "voice_-1001234_7.ogg" ]} : gset string)
      /\ "notes.txt" <> file_path voice_message "ogg".
Proof.
  apply (returned_leaves_directory_clean fair_world voice_message
           {[ "notes.txt"; "voice_-1001234_7.ogg" ]} "AwACAgIAAxkBAAIB" "ogg" "notes.txt").
  - reflexivity.
  - vm_compute. reflexivity.
Defined.

(** X3.  Whatever happens, the handler changes the working directory at
    no other path than that of its temporary file; a message it rejects
    changes nothing. *)
Theorem handler_touches_only_its_file w m fs p :
  (forall file_id ext, classify m = Accepted file_id ext -> p <> file_path m ext) ->
  p ∈ files (handle_voice w m (initial fs)).2 <-> p ∈ fs.
Proof.
  intros Hp. unfold handle_voice.
  destruct (classify m) as [|file_id ext] eqn:Hc.
  - expose. now destruct (reply_text_result w unsupported_message) as [[]|?].
  - specialize (Hp file_id ext eq_refl).
    runs; cbn [fst snd]; in_directory.
Qed.

Lemma handler_touches_only_its_file_witness :
  "notes.txt" ∈ files (handle_voice broken_world voice_message (initial {[ "notes.txt" ]})).2
  <-> "notes.txt" ∈ ({[ "notes.txt" ]} : gset string).
Proof.
  apply (handler_touches_only_its_file broken_world voice_message {[ "notes.txt" ]}).
  intros file_id ext Hc. injection Hc as <- <-. vm_compute. discriminate.
Defined.

Lemma error_message_cases e :
  error_message e = low_quality_message \/ error_message e = generic_error_message.
Proof.
  unfold error_message.
  destruct (PyStr.contains quality_signature (exc_str e)); [now left | now right].
Qed.

(** X4.  A temporary file that was not there before and is there after
    the handler ended can only come from one course of events: the
    [except] clause ran, its edit of the status reply (with one of the
    two error texts) raised, and the handler ended with the exception of
    that edit, which is the last call it made. *)
Theorem leftover_file_means_failed_error_edit w m fs file_id ext :
  classify m = Accepted file_id ext ->
  file_path m ext ∉ fs ->
  file_path m ext ∈ files (handle_voice w m (initial fs)).2 ->
  exists msg body,
    (handle_voice w m (initial fs)).1
    = Raised {| exc_origin := c_edit_text; exc_str := msg |} /\
    last (trace (handle_voice w m (initial fs)).2)
    = Some {| action := a_edit_text body; raised := true |} /\
    (body = low_quality_message \/ body = generic_error_message) /\
    List.length (List.filter is_log (trace (handle_voice w m (initial fs)).2)) = 1%nat.
Proof.
  intros Hc Hfs. unfold handle_voice. rewrite Hc.
  runs; cbn [fst snd]; intros Hleft; decided;
    first
      [ exfalso; in_files
      | eexists _, _; split; [reflexivity|]; split; [reflexivity|];
        split; [apply error_message_cases | reflexivity] ].
Qed.

Lemma leftover_file_means_failed_error_edit_witness :
  exists msg body,
    (handle_voice offline_world voice_message (initial ∅)).1
    = Raised {| exc_origin := c_edit_text; exc_str := msg |} /\
    last (trace (handle_voice offline_world voice_message (initial ∅)).2)
    = Some {| action := a_edit_text body; raised := true |} /\
    (body = low_quality_message \/ body = generic_error_message) /\
    List.length (List.filter is_log
                   (trace (handle_voice offline_world voice_message (initial ∅)).2)) = 1%nat.
Proof.
  apply (leftover_file_means_failed_error_edit
           offline_world voice_message ∅ "AwACAgIAAxkBAAIB" "ogg").
  - reflexivity.
  - apply not_elem_of_empty.
  - evaluated.
Defined.

(** An exception of the handler run on a message comes from the file
    lookup, from the sending of a message, or from an edit of the status
    reply. *)
Lemma raised_by_a_chat_call w m fs e :
  (handle_voice w m (initial fs)).1 = Raised e ->
  In (exc_origin e) [c_get_file; c_reply_text; c_edit_text].
Proof.
  unfold handle_voice. destruct (classify m) as [|file_id ext] eqn:Hc.
  - expose. destruct (reply_text_result w unsupported_message) as [[]|?];
      cbn [fst]; intros He; [discriminate He | injection He as <-]. cbn. auto.
  - sound_runs; cbn [fst snd]; intros He;
      first [discriminate He | injection He as <-; cbn; auto].
Qed.

(** X5.  An exception leaves [handle_voice] in two ways only.  For an
    update without [update.message] (an edited message, a channel post)
    the first line of the handler raises an [AttributeError] before any
    call is made.  For a new message, an exception can leave only from
    the file lookup, from the sending of a message, or from an edit of
    the status reply: the download, the file system, the transcription
    and the summarization never make the handler raise. *)
Theorem exception_leaving_handle_voice w u fs :
  let r := on_message "voice" handle_voice w u (initial fs) in
  (kind u <> k_message -> r = (AttributeError "voice", initial fs)) /\
  (forall attribute, r.1 = AttributeError attribute -> kind u <> k_message) /\
  (forall e, r.1 = Ran (Raised e) ->
             kind u = k_message /\
             In (exc_origin e) [c_get_file; c_reply_text; c_edit_text]).
Proof.
  cbv zeta. unfold on_message, update_message.
  destruct (kind u) eqn:Hk; unfold ran; cbn [fst snd];
    (split; [intros Hne; first [reflexivity | now destruct Hne] |]);
    split; try (intros attribute Ha; first [discriminate Ha | discriminate]);
    intros e He; try discriminate He.
  injection He as He. split; [reflexivity|].
  now apply (raised_by_a_chat_call w (effective_message u) fs).
Qed.

Lemma exception_leaving_handle_voice_witness :
  on_message "voice" handle_voice fair_world
    {| kind := k_edited_message; effective_message := voice_message |} (initial ∅)
  = (AttributeError "voice", initial ∅).
Proof.
  apply (proj1 (exception_leaving_handle_voice fair_world
                  {| kind := k_edited_message; effective_message := voice_message |} ∅)).
  discriminate.
Defined.

(** X6.  The file-system calls of the handler never fail: whenever it
    opens or removes the temporary file, the file is there.  (The
    removal on the error path is guarded by an existence test, the other
    calls come after a download that succeeded.) *)
Theorem file_calls_never_fail w m fs :
  Forall (fun ev => match action ev with
                    | a_open _ | a_remove _ => raised ev = false
                    | _ => True
                    end)
         (trace (handle_voice w m (initial fs)).2).
Proof.
  unfold handle_voice. destruct (classify m) as [|file_id ext] eqn:Hc.
  - expose. destruct (reply_text_result w unsupported_message) as [[]|?];
      repeat constructor.
  - sound_runs; cbn [fst snd]; repeat constructor.
Qed.

(** X7.  A message without voice and audio attachment whose document is
    missing, has no MIME type, or has a MIME type that does not start
    with [audio/], makes [handle_voice] send the rejection text and
    nothing else: no file lookup, no download, no change of the working
    directory; the handler returns exactly when the chat accepts the
    message. *)
Theorem unsupported_message_only_gets_rejection w m fs :
  voice m = None -> audio m = None ->
  (forall d, document m = Some d ->
             PyStr.startswith (default EmptyString (document_mime_type d)) "audio/" = false) ->
  exists failed,
    trace (handle_voice w m (initial fs)).2
    = [ {| action := a_reply_text unsupported_message; raised := failed |} ] /\
    files (handle_voice w m (initial fs)).2 = fs /\
    (failed = false <-> (handle_voice w m (initial fs)).1 = Returned tt).
Proof.
  intros Hv Ha Hd.
  assert (Hc : classify m = Unsupported).
  { unfold classify. rewrite Hv, Ha. destruct (document m) as [d|]; [|reflexivity].
    now rewrite (Hd d eq_refl). }
  unfold handle_voice. rewrite Hc. expose.
  destruct (reply_text_result w unsupported_message) as [[]|msg];
    eexists; (split; [reflexivity|]); (split; [reflexivity|]);
    cbn [fst]; split; intros H; first [reflexivity | discriminate H].
Qed.

Lemma unsupported_message_only_gets_rejection_witness :
  exists failed,
    trace (handle_voice fair_world (document_message (Some "scan.pdf") None) (initial ∅)).2
    = [ {| action := a_reply_text unsupported_message; raised := failed |} ] /\
    files (handle_voice fair_world (document_message (Some "scan.pdf") None) (initial ∅)).2 = ∅ /\
    (failed = false
     <-> (handle_voice fair_world (document_message (Some "scan.pdf") None) (initial ∅)).1
         = Returned tt).
Proof.
  apply (unsupported_message_only_gets_rejection fair_world
           (document_message (Some "scan.pdf") None) ∅); try reflexivity.
  intros d Hd. injection Hd as <-. reflexivity.
Defined.

Lemma VOICE_present m :
  filters.VOICE m = match voice m with Some _ => true | None => false end.
Proof. unfold filters.VOICE. now destruct (voice m). Qed.

Lemma AUDIO_present m :
  filters.AUDIO m = match audio m with Some _ => true | None => false end.
Proof. unfold filters.AUDIO. now destruct (audio m). Qed.

(** X8.  Every message the router gives to [handle_voice] is one it
    processes: it has a voice attachment, an audio attachment, or a
    document whose MIME type starts with [audio/].  So the two branches
    of the handler that send the rejection text are never taken for a
    routed message. *)
Theorem routed_message_is_never_rejected m :
  dispatch m = Some cb_handle_voice ->
  exists file_id ext, classify m = Accepted file_id ext.
Proof.
  unfold dispatch, handlers. cbn [List.find fst snd].
  rewrite VOICE_present, AUDIO_present. unfold classify.
  destruct (filters.Command "start" m); [discriminate|].
  destruct (filters.Command "help" m); [discriminate|].
  destruct (voice m) as [v|]; [eauto|].
  destruct (audio m) as [a|]; [eauto|]. cbn [orb].
  unfold filters.Document_AUDIO.
  destruct (document m) as [d|].
  - destruct (document_mime_type d) as [mime|].
    + change (default EmptyString (Some mime)) with mime.
      destruct (PyStr.startswith mime "audio/"); [eauto|].
      rewrite andb_false_r.
      destruct (filters.TEXT m && negb (filters.COMMAND m)); discriminate.
    + destruct (filters.TEXT m && negb (filters.COMMAND m)); discriminate.
  - destruct (filters.TEXT m && negb (filters.COMMAND m)); discriminate.
Qed.

Lemma routed_message_is_never_rejected_witness :
  exists file_id ext,
    classify (document_message (Some "memo.ogg") (Some "audio/ogg")) = Accepted file_id ext.
Proof.
  apply routed_message_is_never_rejected. vm_compute. reflexivity.
Defined.

(** For a new or an edited message the update goes to the handler that
    the tests on its message select. *)
Lemma dispatch_update_of_message u :
  UpdateType_MESSAGES u = true -> dispatch_update u = dispatch (effective_message u).
Proof.
  intros H. unfold dispatch_update, dispatch, update_handlers, handlers.
  cbn [List.find fst snd]. rewrite H, !andb_true_r.
  repeat match goal with
         | |- context [if ?b then _ else _] => destruct b; try reflexivity
         end.
Qed.

Lemma dispatch_command m :
  PyStr.truthy (text m) = true ->
  (command m = Some "start" -> dispatch m = Some cb_start) /\
  (command m = Some "help" -> dispatch m = Some cb_help_command).
Proof.
  intros Ht. unfold dispatch, handlers. cbn [List.find fst snd].
  unfold filters.Command. rewrite Ht. cbn [andb]. split; intros Hc; rewrite Hc.
  - rewrite bool_decide_eq_true_2 by reflexivity. reflexivity.
  - rewrite bool_decide_eq_false_2 by discriminate.
    rewrite bool_decide_eq_true_2 by reflexivity. reflexivity.
Qed.

(** X9.  A text that starts with the command [start] addressed to this
    bot is given to [start], one with [help] to [help_command], whatever
    else the message holds: the command handlers are registered first.
    As a new message it is answered with the welcome text, respectively
    the help text, and nothing else happens.  As an edited message the
    same handler is called, but [update.message] is [None] there: the
    handler raises an [AttributeError] and nothing is sent. *)
Theorem commands_by_update_kind w u st :
  PyStr.truthy (text (effective_message u)) = true ->
  (command (effective_message u) = Some "start" -> kind u = k_message ->
   handle_update w u st = ran (reply_text w welcome_message st)) /\
  (command (effective_message u) = Some "help" -> kind u = k_message ->
   handle_update w u st = ran (reply_text w help_text st)) /\
  (command (effective_message u) = Some "start" \/
   command (effective_message u) = Some "help" ->
   kind u = k_edited_message ->
   handle_update w u st = (AttributeError "reply_text", st)).
Proof.
  intros Ht. destruct (dispatch_command _ Ht) as [Hstart Hhelp].
  unfold handle_update. repeat split.
  - intros Hc Hk. rewrite dispatch_update_of_message, (Hstart Hc)
      by (unfold UpdateType_MESSAGES; now rewrite Hk).
    unfold callback_on, on_message, update_message. now rewrite Hk.
  - intros Hc Hk. rewrite dispatch_update_of_message, (Hhelp Hc)
      by (unfold UpdateType_MESSAGES; now rewrite Hk).
    unfold callback_on, on_message, update_message. now rewrite Hk.
  - intros Hc Hk. rewrite dispatch_update_of_message
      by (unfold UpdateType_MESSAGES; now rewrite Hk).
    destruct Hc as [Hc | Hc]; [rewrite (Hstart Hc) | rewrite (Hhelp Hc)];
      unfold callback_on, on_message, update_message; now rewrite Hk.
Qed.

Lemma commands_by_update_kind_witness :
  handle_update fair_world
    {| kind := k_message; effective_message := text_message "/help" (Some "help") |}
    (initial ∅)
  = ran (reply_text fair_world help_text (initial ∅)) /\
  handle_update fair_world
    {| kind := k_edited_message; effective_message := text_message "/help" (Some "help") |}
    (initial ∅)
  = (AttributeError "reply_text", initial ∅).
Proof.
  split.
  - apply (proj1 (proj2 (commands_by_update_kind fair_world
                           {| kind := k_message;
                              effective_message := text_message "/help" (Some "help") |}
                           (initial ∅) eq_refl))); reflexivity.
  - apply (proj2 (proj2 (commands_by_update_kind fair_world
                           {| kind := k_edited_message;
                              effective_message := text_message "/help" (Some "help") |}
                           (initial ∅) eq_refl))); [right|]; reflexivity.
Defined.

(** X10.  A text that starts with a command other than [start] and
    [help], in a message without attachment, is given to no handler:
    nothing is sent and nothing changes. *)
Theorem unknown_command_is_dropped w m st name :
  PyStr.truthy (text m) = true ->
  command m = Some name -> name <> "start" -> name <> "help" ->
  voice m = None -> audio m = None -> document m = None ->
  process_update w m st = (Returned tt, st).
Proof.
  intros Ht Hc Hs Hh Hv Ha Hd.
  unfold process_update, dispatch, handlers. cbn [List.find fst snd].
  rewrite VOICE_present, AUDIO_present.
  unfold filters.Command, filters.Document_AUDIO, filters.TEXT, filters.COMMAND.
  rewrite Ht, Hc, Hv, Ha, Hd. cbn [andb orb].
  rewrite !bool_decide_eq_false_2 by congruence.
  rewrite bool_decide_eq_true_2 by eauto. reflexivity.
Qed.

Lemma unknown_command_is_dropped_witness :
  process_update fair_world (text_message "/settings" (Some "settings")) (initial ∅)
  = (Returned tt, initial ∅).
Proof.
  apply (unknown_command_is_dropped fair_world (text_message "/settings" (Some "settings"))
           (initial ∅) "settings");
    first [reflexivity | discriminate].
Defined.

(** X11.  A non-empty text that does not start with a bot command, in a
    message without attachment, is given to [handle_other] for every
    kind of update.  As a new message it is answered with the text of
    [handle_other] and nothing else happens.  As an edited message, a
    channel post or an edited channel post, [update.message] is [None]:
    the handler raises an [AttributeError] and nothing is sent. *)
Theorem plain_text_by_update_kind w u st :
  PyStr.truthy (text (effective_message u)) = true ->
  command (effective_message u) = None ->
  voice (effective_message u) = None ->
  audio (effective_message u) = None ->
  document (effective_message u) = None ->
  dispatch_update u = Some cb_handle_other /\
  (kind u = k_message -> handle_update w u st = ran (reply_text w other_message st)) /\
  (kind u <> k_message -> handle_update w u st = (AttributeError "reply_text", st)).
Proof.
  intros Ht Hc Hv Ha Hd.
  assert (Hdispatch : dispatch_update u = Some cb_handle_other).
  { unfold dispatch_update, update_handlers. cbn [List.find fst snd].
    rewrite VOICE_present, AUDIO_present.
    unfold filters.Command, filters.Document_AUDIO, filters.TEXT, filters.COMMAND.
    rewrite Ht, Hc, Hv, Ha, Hd. cbn [andb orb].
    rewrite !bool_decide_eq_false_2 by first [discriminate | intros [? ?]; discriminate].
    reflexivity. }
  split; [exact Hdispatch|]. unfold handle_update. rewrite Hdispatch.
  unfold callback_on, on_message, update_message. split.
  - intros Hk. now rewrite Hk.
  - intros Hk. destruct (kind u); [now destruct Hk | reflexivity..].
Qed.

Lemma plain_text_by_update_kind_witness :
  handle_update fair_world
    {| kind := k_channel_post; effective_message := text_message "hello" None |} (initial ∅)
  = (AttributeError "reply_text", initial ∅).
Proof.
  apply (proj2 (proj2 (plain_text_by_update_kind fair_world
                         {| kind := k_channel_post;
                            effective_message := text_message "hello" None |}
                         (initial ∅) eq_refl eq_refl eq_refl eq_refl eq_refl))).
  discriminate.
Defined.

(** X12.  The handler tries at most two edits of the status reply, and a
    second one only after the chat refused the first; the second edit
    always carries one of the two error texts. *)
Theorem second_edit_only_after_refusal w m fs :
  (List.length (List.filter is_edit (trace (handle_voice w m (initial fs)).2)) <= 2)%nat /\
  (forall first second,
      List.filter is_edit (trace (handle_voice w m (initial fs)).2) = [first; second] ->
      raised first = true /\
      (action second = a_edit_text low_quality_message \/
       action second = a_edit_text generic_error_message)).
Proof.
  unfold handle_voice. destruct (classify m) as [|file_id ext] eqn:Hc.
  - expose. destruct (reply_text_result w unsupported_message) as [[]|?];
      cbn [snd]; (split; [cbn; lia | intros first second Heq; discriminate Heq]).
  - sound_runs; cbn [fst snd];
      (split; [cbn [List.length]; lia|]);
      intros first second Heq;
      first
        [ discriminate Heq
        | injection Heq as <- <-; split; [reflexivity|]; cbn [action];
          match goal with
          | |- context [error_message ?e] =>
              destruct (error_message_cases e) as [-> | ->]; auto
          end ].
Qed.

Lemma index_error_is_generic :
  error_message {| exc_origin := c_index; exc_str := "list index out of range" |}
  = generic_error_message.
Proof. reflexivity. Qed.

(** X13.  When the language model answers without any choice, indexing
    the choices raises inside the [try]: the error is logged and the
    handler tries to edit the status reply to the generic error text.
    When the chat accepts that edit, the temporary file is removed and
    the handler returns; when the chat refuses it, the handler ends with
    the exception of the edit and the file is left. *)
Theorem empty_choices_give_generic_error w m fs file_id ext transcript_text :
  classify m = Accepted file_id ext ->
  get_file_result w file_id = Ok tt ->
  reply_text_result w processing_text = Ok tt ->
  download_result w (file_path m ext) = Downloaded ->
  transcribe_result w (transcription_request (file_path m ext)) = Ok transcript_text ->
  blank transcript_text = false ->
  summarize_result w (completion_request transcript_text) = Ok [] ->
  let r := handle_voice w m (initial fs) in
  let path := file_path m ext in
  exists rejected,
    trace r.2 =
      ([ {| action := a_get_file file_id; raised := false |};
         {| action := a_reply_text processing_text; raised := false |};
         {| action := a_download_to_drive path; raised := false |};
         {| action := a_open path; raised := false |};
         {| action := a_transcribe (transcription_request path); raised := false |};
         {| action := a_summarize (completion_request transcript_text); raised := false |};
         {| action := a_log_error ("Ошибка при обработке: " ++ "list index out of range")%string;
            raised := false |};
         {| action := a_edit_text generic_error_message; raised := rejected |} ]
       ++ (if rejected then [] else [ {| action := a_remove path; raised := false |} ]))%list /\
    (rejected = false -> r.1 = Returned tt /\ (path ∉ files r.2)) /\
    (rejected = true ->
     (exists msg, r.1 = Raised {| exc_origin := c_edit_text; exc_str := msg |}) /\
     path ∈ files r.2).
Proof.
  intros Hc Hget Hreply Hdown Htext Hblank Hsum.
  unfold handle_voice. rewrite Hc.
  sound_runs; cbn [fst snd]; try congruence; agree; try congruence;
    rewrite ?index_error_is_generic;
    [ exists false | exists true ];
    (split; [reflexivity|]); split; intros Hrej;
    first [discriminate Hrej | split; first [reflexivity | eexists; reflexivity | in_files]].
Qed.

Lemma empty_choices_give_generic_error_witness :
  let r := handle_voice speechless_world voice_message (initial ∅) in
  let path := file_path voice_message "ogg" in
  exists rejected,
    trace r.2 =
      ([ {| action := a_get_file "AwACAgIAAxkBAAIB"; raised := false |};
         {| action := a_reply_text processing_text; raised := false |};
         {| action := a_download_to_drive path; raised := false |};
         {| action := a_open path; raised := false |};
         {| action := a_transcribe (transcription_request path); raised := false |};
         {| action := a_summarize (completion_request "hello world"); raised := false |};
         {| action := a_log_error ("Ошибка при обработке: " ++ "list index out of range")%string;
            raised := false |};
         {| action := a_edit_text generic_error_message; raised := rejected |} ]
       ++ (if rejected then [] else [ {| action := a_remove path; raised := false |} ]))%list /\
    (rejected = false -> r.1 = Returned tt /\ (path ∉ files r.2)) /\
    (rejected = true ->
     (exists msg, r.1 = Raised {| exc_origin := c_edit_text; exc_str := msg |}) /\
     path ∈ files r.2).
Proof.
  apply (empty_choices_give_generic_error speechless_world voice_message ∅
           "AwACAgIAAxkBAAIB" "ogg" "hello world");
    vm_compute; reflexivity.
Defined.

(** X14.  Nothing is downloaded before the status reply was delivered:
    a download is always the third call of a run, after a file lookup
    that succeeded and an acknowledgement that the chat accepted. *)
Theorem download_only_after_acknowledgement w m fs i path failed :
  trace (handle_voice w m (initial fs)).2 !! i
  = Some {| action := a_download_to_drive path; raised := failed |} ->
  i = 2%nat /\
  (exists file_id,
      trace (handle_voice w m (initial fs)).2 !! 0%nat
      = Some {| action := a_get_file file_id; raised := false |}) /\
  trace (handle_voice w m (initial fs)).2 !! 1%nat
  = Some {| action := a_reply_text processing_text; raised := false |}.
Proof.
  unfold handle_voice. destruct (classify m) as [|file_id ext] eqn:Hc.
  - expose. destruct (reply_text_result w unsupported_message) as [[]|?];
      cbn [snd]; intros H; at_index H i.
  - sound_runs; cbn [fst snd]; intros H; at_index H i;
      (split; [reflexivity|]); (split; [eexists; reflexivity | reflexivity]).
Qed.

Lemma download_only_after_acknowledgement_witness :
  2%nat = 2%nat /\
  (exists file_id,
      trace (handle_voice broken_world voice_message (initial ∅)).2 !! 0%nat
      = Some {| action := a_get_file file_id; raised := false |}) /\
  trace (handle_voice broken_world voice_message (initial ∅)).2 !! 1%nat
  = Some {| action := a_reply_text processing_text; raised := false |}.
Proof.
  apply (download_only_after_acknowledgement broken_world voice_message ∅ 2%nat
           (file_path voice_message "ogg") true).
  vm_compute. reflexivity.
Defined.

(** X15.  The speech-to-text service is called at most once per run,
    always for the model [whisper-1] and the language [ru], and only on
    a temporary file that was downloaded completely and then opened. *)
Theorem transcription_of_downloaded_file w m fs i req failed :
  trace (handle_voice w m (initial fs)).2 !! i
  = Some {| action := a_transcribe req; raised := failed |} ->
  i = 4%nat /\
  tr_model req = "whisper-1" /\
  tr_language req = "ru" /\
  (exists file_id ext, classify m = Accepted file_id ext /\ tr_file req = file_path m ext) /\
  trace (handle_voice w m (initial fs)).2 !! 2%nat
  = Some {| action := a_download_to_drive (tr_file req); raised := false |} /\
  trace (handle_voice w m (initial fs)).2 !! 3%nat
  = Some {| action := a_open (tr_file req); raised := false |}.
Proof.
  unfold handle_voice. destruct (classify m) as [|file_id ext] eqn:Hc.
  - expose. destruct (reply_text_result w unsupported_message) as [[]|?];
      cbn [snd]; intros H; at_index H i.
  - sound_runs; cbn [fst snd]; intros H; at_index H i;
      injection H as <- <-; repeat split; eauto.
Qed.

Lemma transcription_of_downloaded_file_witness :
  4%nat = 4%nat /\
  tr_model (transcription_request (file_path voice_message "ogg")) = "whisper-1" /\
  tr_language (transcription_request (file_path voice_message "ogg")) = "ru" /\
  (exists file_id ext,
      classify voice_message = Accepted file_id ext /\
      tr_file (transcription_request (file_path voice_message "ogg"))
      = file_path voice_message ext) /\
  trace (handle_voice noisy_world voice_message (initial ∅)).2 !! 2%nat
  = Some {| action := a_download_to_drive
                        (tr_file (transcription_request (file_path voice_message "ogg")));
            raised := false |} /\
  trace (handle_voice noisy_world voice_message (initial ∅)).2 !! 3%nat
  = Some {| action := a_open (tr_file (transcription_request (file_path voice_message "ogg")));
            raised := false |}.
Proof.
  apply (transcription_of_downloaded_file noisy_world voice_message ∅ 4%nat
           (transcription_request (file_path voice_message "ogg")) true).
  vm_compute. reflexivity.
Defined.

(** * Further properties of the string tests *)

Lemma prefix_split p s : String.prefix p s = true <-> exists rest, s = p ++ rest.
Proof.
  revert s. induction p as [|a p IH]; intros s.
  - split; [intros _; now exists s | intros _; now destruct s].
  - destruct s as [|b s]; cbn [String.prefix].
    + split; [discriminate | intros [rest H]; discriminate H].
    + destruct (ascii_dec a b) as [->|Hne].
      * rewrite IH. split; intros [rest H]; exists rest.
        -- now rewrite append_cons, H.
        -- rewrite append_cons in H. now injection H.
      * split; [discriminate|]. intros [rest H].
        rewrite append_cons in H. injection H as H _. now destruct Hne.
Qed.

Lemma contains_split needle hay :
  PyStr.contains needle hay = true <-> exists before after, hay = before ++ needle ++ after.
Proof.
  induction hay as [|c hay IH]; cbn [PyStr.contains]; rewrite orb_true_iff, prefix_split.
  - split.
    + intros [[rest H] | H]; [|discriminate H]. now exists EmptyString, rest.
    + intros (before & after & H). left. exists after.
      destruct before; [exact H | discriminate H].
  - rewrite IH. split.
    + intros [[rest H] | (before & after & H)].
      * now exists EmptyString, rest.
      * exists (String c before), after. now rewrite append_cons, H.
    + intros (before & after & H). destruct before as [|b before].
      * left. now exists after.
      * right. rewrite append_cons in H. injection H as _ H. now exists before, after.
Qed.

(** X16.  The error shown is the "low audio quality" text exactly when
    the text of the exception has [Could not process audio] somewhere in
    it, with these very characters; in every other case it is the
    generic text. *)
Theorem quality_signature_anywhere e :
  (error_message e = low_quality_message
   <-> exists before after,
         exc_str e = before ++ "Could not process audio" ++ after) /\
  (error_message e = generic_error_message
   <-> ~ exists before after,
           exc_str e = before ++ "Could not process audio" ++ after).
Proof.
  destruct (error_message_signature e) as [Hlow Hgen].
  rewrite Hlow, Hgen. change "Could not process audio" with quality_signature.
  rewrite <- contains_split. split; [reflexivity|].
  destruct (PyStr.contains quality_signature (exc_str e)); split; intros H;
    first [reflexivity | discriminate H | now destruct H | congruence].
Qed.

Lemma cat_app l1 l2 : PyStr.cat (l1 ++ l2)%list = PyStr.cat l1 ++ PyStr.cat l2.
Proof.
  induction l1 as [|s l1 IH]; [reflexivity|].
  change (PyStr.cat ((s :: l1) ++ l2)%list) with (s ++ PyStr.cat (l1 ++ l2)%list).
  change (PyStr.cat (s :: l1)) with (s ++ PyStr.cat l1).
  now rewrite IH, append_assoc.
Qed.

Lemma contains_cat l1 s l2 : PyStr.contains s (PyStr.cat (l1 ++ s :: l2)%list) = true.
Proof.
  apply contains_split. exists (PyStr.cat l1), (PyStr.cat l2).
  now rewrite cat_app.
Qed.

(** X17.  The composed answer holds the whole transcript and the whole
    text returned by the language model, unchanged; when the language
    model returns no text, the answer holds the word [None] in its
    place. *)
Theorem result_message_holds_both transcript_text theses :
  PyStr.contains transcript_text (result_message transcript_text theses) = true /\
  PyStr.contains (format_content theses) (result_message transcript_text theses) = true /\
  (theses = None -> PyStr.contains "None" (result_message transcript_text theses) = true).
Proof.
  assert (Hsecond :
    PyStr.contains (format_content theses) (result_message transcript_text theses) = true).
  { unfold result_message.
    apply (contains_cat
             [ "📝 Транскрипция:"; PyStr.nl; transcript_text; PyStr.nl; PyStr.nl;
               "📌 Тезисы:"; PyStr.nl ]
             (format_content theses)
             [ PyStr.nl; PyStr.nl; "Нужно что-то ещё?" ]). }
  split; [|split; [exact Hsecond|]].
  - unfold result_message.
    apply (contains_cat
             [ "📝 Транскрипция:"; PyStr.nl ]
             transcript_text
             [ PyStr.nl; PyStr.nl; "📌 Тезисы:"; PyStr.nl; format_content theses;
               PyStr.nl; PyStr.nl; "Нужно что-то ещё?" ]).
  - intros ->. exact Hsecond.
Qed.

Lemma result_message_holds_both_witness :
  PyStr.contains "None" (result_message "hello world" None) = true.
Proof.
  exact (proj2 (proj2 (result_message_holds_both "hello world" None)) eq_refl).
Defined.

(** ** Blank transcripts, the other way round *)

Lemma drop_prefix_split p s rest : PyStr.drop_prefix p s = Some rest -> s = p ++ rest.
Proof.
  revert s. induction p as [|a p IH]; intros s; cbn [PyStr.drop_prefix].
  - now intros [= ->].
  - destruct s as [|b s]; [discriminate|].
    destruct (Ascii.eqb_spec a b) as [->|]; [|discriminate].
    intros H. now rewrite append_cons, (IH _ H).
Qed.

Lemma drop_space_split ws s rest :
  PyStr.drop_space ws s = Some rest -> exists w, In w ws /\ s = w ++ rest.
Proof.
  unfold PyStr.drop_space. induction ws as [|w ws IH]; cbn [List.fold_right];
    [discriminate|].
  destruct (PyStr.drop_prefix w s) as [r|] eqn:Hw.
  - intros [= ->]. exists w. split; [now left | now apply drop_prefix_split].
  - intros H. destruct (IH H) as (w' & Hin & Hs). exists w'. split; [now right | exact Hs].
Qed.

Lemma lstrip_fuel_split ws fuel s :
  exists pieces,
    Forall (fun p => In p ws) pieces /\
    s = PyStr.cat pieces ++ PyStr.lstrip_fuel ws fuel s.
Proof.
  revert s. induction fuel as [|fuel IH]; intros s; cbn [PyStr.lstrip_fuel].
  - now exists [].
  - destruct (PyStr.drop_space ws s) as [rest|] eqn:Hd; [|now exists []].
    destruct (drop_space_split _ _ _ Hd) as (w & Hin & ->).
    destruct (IH rest) as (pieces & Hall & Hrest).
    exists (w :: pieces). split; [now constructor|].
    change (PyStr.cat (w :: pieces)) with (w ++ PyStr.cat pieces).
    now rewrite append_assoc, <- Hrest.
Qed.

Lemma list_of_append s t :
  list_ascii_of_string (s ++ t) = (list_ascii_of_string s ++ list_ascii_of_string t)%list.
Proof.
  induction s as [|c s IH]; [reflexivity|].
  rewrite append_cons. cbn [list_ascii_of_string List.app]. now rewrite IH.
Qed.

Lemma string_of_app l1 l2 :
  string_of_list_ascii (l1 ++ l2)%list = string_of_list_ascii l1 ++ string_of_list_ascii l2.
Proof.
  induction l1 as [|c l1 IH]; [reflexivity|].
  cbn [List.app string_of_list_ascii]. now rewrite append_cons, IH.
Qed.

Lemma rev_rev s : PyStr.rev (PyStr.rev s) = s.
Proof.
  unfold PyStr.rev.
  now rewrite list_ascii_of_string_of_list_ascii, List.rev_involutive,
    string_of_list_ascii_of_string.
Qed.

Lemma rev_append s t : PyStr.rev (s ++ t) = PyStr.rev t ++ PyStr.rev s.
Proof.
  unfold PyStr.rev. now rewrite list_of_append, List.rev_app_distr, string_of_app.
Qed.

Lemma rev_cat pieces :
  PyStr.rev (PyStr.cat pieces) = PyStr.cat (List.map PyStr.rev (List.rev pieces)).
Proof.
  induction pieces as [|s pieces IH]; [reflexivity|].
  change (PyStr.cat (s :: pieces)) with (s ++ PyStr.cat pieces).
  rewrite rev_append, IH. cbn [List.rev]. rewrite List.map_app, cat_app.
  cbn [List.map]. f_equal.
  change (PyStr.cat [PyStr.rev s]) with (PyStr.rev s ++ EmptyString).
  now rewrite append_nil_r.
Qed.

Lemma rstrip_empty s : PyStr.rstrip s = EmptyString -> whitespace_only s.
Proof.
  unfold PyStr.rstrip. intros H.
  apply (f_equal PyStr.rev) in H. rewrite rev_rev in H. change (PyStr.rev "") with "" in H.
  destruct (lstrip_fuel_split (List.map PyStr.rev PyStr.whitespace)
              (String.length s) (PyStr.rev s)) as (pieces & Hall & Hs).
  rewrite H, append_nil_r in Hs.
  apply (f_equal PyStr.rev) in Hs. rewrite rev_rev, rev_cat in Hs.
  exists (List.map PyStr.rev (List.rev pieces)). split; [|exact Hs].
  apply List.Forall_forall. intros p Hp.
  apply List.in_map_iff in Hp as (q & <- & Hq).
  apply List.in_rev in Hq.
  rewrite List.Forall_forall in Hall.
  apply Hall, List.in_map_iff in Hq as (w & <- & Hw). now rewrite rev_rev.
Qed.

(** X18.  The test of line 113 sends the "speech not recognized" text
    for exactly the transcripts that are empty or made of white-space
    code points only: a transcript with any other character in it goes
    on to the summarization. *)
Theorem blank_exactly_whitespace transcript_text :
  blank transcript_text = true
  <-> transcript_text = EmptyString \/ whitespace_only transcript_text.
Proof.
  split; [|apply blank_whitespace].
  unfold blank. intros H. apply orb_true_iff in H as [H | H].
  - left. now destruct transcript_text.
  - right. apply String.eqb_eq in H. unfold PyStr.strip in H.
    apply rstrip_empty in H as (tail & Htail & Hstrip).
    destruct (lstrip_fuel_split PyStr.whitespace (String.length transcript_text)
                transcript_text) as (front & Hfront & Hs).
    fold (PyStr.lstrip transcript_text) in Hs. rewrite Hstrip in Hs.
    exists (front ++ tail)%list. split.
    + apply List.Forall_app. now split.
    + now rewrite cat_app.
Qed.

Lemma blank_exactly_whitespace_witness : blank (" " ++ PyStr.nl) = true.
Proof.
  apply (proj2 (blank_exactly_whitespace (" " ++ PyStr.nl))).
  right. exists [" "; PyStr.nl]. split; [|reflexivity].
  repeat constructor; vm_compute; tauto.
Defined.

Lemma quality_signature_anywhere_witness :
  error_message {| exc_origin := c_transcribe;
                   exc_str := "Error code: 400 - Could not process audio" |}
  = low_quality_message.
Proof.
  apply (proj2 (proj1 (quality_signature_anywhere
                         {| exc_origin := c_transcribe;
                            exc_str := "Error code: 400 - Could not process audio" |}))).
  exists "Error code: 400 - ", "". reflexivity.
Defined.

Lemma second_edit_only_after_refusal_witness :
  raised {| action := a_edit_text (result_message "hello world" (Some "1. hello world"));
            raised := true |} = true /\
  (action {| action := a_edit_text generic_error_message; raised := false |}
   = a_edit_text low_quality_message \/
   action {| action := a_edit_text generic_error_message; raised := false |}
   = a_edit_text generic_error_message).
Proof.
  apply (proj2 (second_edit_only_after_refusal verbose_world voice_message ∅)).
  vm_compute. reflexivity.
Defined.

(** * The handler with a chat that accepts every edit *)

(** X19.  When the file lookup and the acknowledgement succeed and the
    chat accepts every edit, the handler always returns normally,
    whatever the download, the transcription and the summarization do:
    exactly one message was sent, exactly one edit was made, and the
    temporary file is not in the working directory. *)
Theorem working_chat_contains_all_failures w m fs file_id ext :
  classify m = Accepted file_id ext ->
  get_file_result w file_id = Ok tt ->
  reply_text_result w processing_text = Ok tt ->
  (forall n body, edit_text_result w n body = Ok tt) ->
  let r := handle_voice w m (initial fs) in
  r.1 = Returned tt /\
  sent (trace r.2) = [ {| action := a_reply_text processing_text; raised := false |} ] /\
  List.length (edited (trace r.2)) = 1%nat /\
  List.length (List.filter is_edit (trace r.2)) = 1%nat /\
  (file_path m ext ∉ files r.2).
Proof.
  intros Hc Hget Hreply Hedit. unfold handle_voice. rewrite Hc.
  sound_runs; cbn [fst snd]; try congruence;
    try match goal with
        | H : edit_text_result _ _ _ = Fails _ |- _ => rewrite Hedit in H; discriminate H
        end;
    repeat split; first [reflexivity | in_directory].
Qed.

Lemma working_chat_contains_all_failures_witness :
  let r := handle_voice broken_world voice_message (initial ∅) in
  r.1 = Returned tt /\
  sent (trace r.2) = [ {| action := a_reply_text processing_text; raised := false |} ] /\
  List.length (edited (trace r.2)) = 1%nat /\
  List.length (List.filter is_edit (trace r.2)) = 1%nat /\
  (file_path voice_message "ogg" ∉ files r.2).
Proof.
  apply (working_chat_contains_all_failures broken_world voice_message ∅
           "AwACAgIAAxkBAAIB" "ogg"); reflexivity.
Defined.
